(** * Radial clustering (KK24): balanced angular partition and sector boundaries

    A shallow embedding of [find_optimal_clustering] and of the boundary
    computation of [visualize_clusters] from [radial_clustering.py].

    Conventions of the embedding:
    - Python [int] is [Z]; [//] and [%] are [Z.div] and [Z.modulo] (both round
      towards minus infinity, the remainder takes the sign of the divisor), with
      the [ZeroDivisionError] written out.
    - Python exceptions are values of [exn], carried by the [result] monad.
    - A [float] is an exact rational ([Q]); where pandas can produce [NaN]
      (minimum of an empty selection, a missing dictionary key) the value is an
      [option], [None] standing for [NaN].
    - A data frame is the list of its rows in row order; the frame built by
      [apply_pca] has a [RangeIndex], so row [i] carries index label [i].
    - [np.arctan2], [np.degrees] and the row order chosen by
      [DataFrame.sort_values] are library code: they are parameters of the
      section that embeds the partitioner. So are scipy's [ConvexHull] and
      what [DataFrame.fillna] does to the id column, for [main] and
      [load_and_preprocess_data]. *)

From Stdlib Require Import ZArith QArith Qround Qabs Qminmax Lqa Ascii String List Permutation Sorted Lia.
From stdpp Require Import base list gmap strings fin_maps.

Close Scope Q_scope.
Open Scope Z_scope.

(** ** Exceptions *)

Inductive exn : Set := ZeroDivisionError | IndexError | ValueError.

Inductive result (A : Type) : Type :=
| Return (a : A)
| Raise (e : exn).
Arguments Return {A} a.
Arguments Raise {A} e.

(** [x ← r; k] runs [k] on the value of [r] and passes an exception on. *)
#[global] Instance result_bind : MBind result := fun A B k r =>
  match r with
  | Return a => k a
  | Raise e => Raise e
  end.

(** ** Python built-ins used by the script *)

Module Py.

(** [a // b] *)
Definition floordiv (a b : Z) : result Z :=
  if b =? 0 then Raise ZeroDivisionError else Return (a / b).

(** [a % b] on integers *)
Definition imod (a b : Z) : result Z :=
  if b =? 0 then Raise ZeroDivisionError else Return (a mod b).

(** [range(n)] *)
Definition range (n : Z) : list Z := map Z.of_nat (seq 0 (Z.to_nat n)).

(** [range(lo, hi, 1)] *)
Definition range3 (lo hi : Z) : list Z :=
  map (fun i => lo + Z.of_nat i) (seq 0 (Z.to_nat (hi - lo))).

(** [l[:k]]: a negative [k] counts from the end. *)
Definition slice_to {A : Type} (l : list A) (k : Z) : list A :=
  if k <? 0 then firstn (Z.to_nat (Z.of_nat (length l) + k)) l
  else firstn (Z.to_nat k) l.

(** [l[i]]: a negative [i] counts from the end; out of range raises. *)
Definition getitem {A : Type} (l : list A) (i : Z) : result A :=
  let j := if i <? 0 then Z.of_nat (length l) + i else i in
  if j <? 0 then Raise IndexError
  else match nth_error l (Z.to_nat j) with
       | Some x => Return x
       | None => Raise IndexError
       end.

(** [[x] * n]: empty when [n <= 0]. *)
Definition replicate1 {A : Type} (x : A) (n : Z) : list A :=
  repeat x (Z.to_nat n).

(** [x % m] on floats, for a positive modulus: [x - m * floor (x / m)]. *)
Definition fmod (x m : Q) : Q :=
  (x - m * inject_Z (Qfloor (x / m)))%Q.

(** [a < b] on floats; a comparison with NaN is false. *)
Definition flt (a b : option Q) : bool :=
  match a, b with
  | Some x, Some y => negb (Qle_bool y x)
  | _, _ => false
  end.

(** Float arithmetic; NaN is contagious. *)
Definition fadd (a b : option Q) : option Q := x ← a; y ← b; Some (x + y)%Q.
Definition fdiv (a b : option Q) : option Q := x ← a; y ← b; Some (x / y)%Q.
Definition fneg (a : option Q) : option Q := x ← a; Some (- x)%Q.
Definition frem (a b : option Q) : option Q := x ← a; y ← b; Some (fmod x y).

(** [sorted(l, key=key)]: stable; an element is placed ahead of one that
    comes before it in [l] only when its key is strictly smaller. *)
Fixpoint insert_by {A : Type} (key : A -> option Q) (x : A) (l : list A) : list A :=
  match l with
  | [] => [x]
  | h :: t => if flt (key h) (key x) then h :: insert_by key x t else x :: l
  end.

Definition sorted {A : Type} (key : A -> option Q) (l : list A) : list A :=
  fold_right (insert_by key) [] l.

End Py.

(** ** Data frames *)

(** A row of [pca_df]: the two principal components and the participant id. *)
Record pca_row : Type := mk_pca_row { PC1 : Q; PC2 : Q; pid : nat }.

(** A row of [temp_df] once the [Angle] column is set; [t_index] is the row's
    index label. *)
Record temp_row : Type := mk_temp_row { t_index : nat; t_point : pca_row; t_Angle : Q }.

(** A row of the frame [find_optimal_clustering] returns: the [Cluster] cell is
    what [Index.map] found in the dictionary, [None] (NaN) for a missing key. *)
Record out_row : Type :=
  mk_out_row { index : nat; point : pca_row; Angle : Q; Cluster : option ascii }.

(** [Series.mean()]; of no consequence for an empty series, which has no row
    to take an angle of. *)
Definition mean (xs : list Q) : Q :=
  (fold_right Qplus 0 xs / inject_Z (Z.of_nat (length xs)))%Q.

(** [Series.min()] and [Series.max()] of an integer series: NaN when empty. *)
Definition size_min (xs : list nat) : option nat :=
  fold_right (fun x acc => Some (match acc with Some y => Nat.min x y | None => x end)) None xs.

Definition size_max (xs : list nat) : option nat :=
  fold_right (fun x acc => Some (match acc with Some y => Nat.max x y | None => x end)) None xs.

(** [dict(zip(keys, values))]: a later pair overwrites an earlier one. *)
Definition dict_of_zip (keys : list nat) (values : list ascii) : gmap nat ascii :=
  fold_left (fun m kv => <[kv.1 := kv.2]> m) (combine keys values) ∅.

(** [groupby('Cluster').size()]: one entry per label that occurs, NaN cells
    are dropped. *)
Definition groupby_size (column : list (option ascii)) : gmap ascii nat :=
  fold_right (fun c m => match c with
                         | Some x => <[x := S (default 0%nat (m !! x))]> m
                         | None => m
                         end) ∅ column.

(** Line 153: [cluster_sizes.min() >= participants_per_cluster and
    cluster_sizes.max() <= participants_per_cluster + 1]; a comparison with
    NaN (no group at all) is false. *)
Definition balanced (participants_per_cluster : Z) (cluster_sizes : gmap ascii nat) : bool :=
  let sizes := (map_to_list cluster_sizes).*2 in
  match size_min sizes, size_max sizes with
  | Some mn, Some mx =>
      (participants_per_cluster <=? Z.of_nat mn) && (Z.of_nat mx <=? participants_per_cluster + 1)
  | _, _ => false
  end.

(** [list('ABCDEF')] *)
Definition ABCDEF : list ascii := list_ascii_of_string "ABCDEF".

(** ** The angular partitioner *)

Section Partitioner.

(** [np.arctan2 y x] and [np.degrees]. *)
Variable arctan2 : Q -> Q -> Q.
Variable degrees : Q -> Q.

(** [temp_df.sort_values('Angle')]: the rows of the frame in the order
    pandas puts them. *)
Variable sort_values : list temp_row -> list temp_row.

(** Lines 120-122: the angle of every row for one offset. *)
Definition angles_degrees (pca_df : list pca_row) (initial_angle_offset : Z) : list Q :=
  let central_point := (mean (map PC1 pca_df), mean (map PC2 pca_df)) in
  let angles :=
    map (fun p => (- arctan2 (PC2 p - central_point.2) (PC1 p - central_point.1))%Q) pca_df in
  map (fun a => Py.fmod (degrees a + inject_Z initial_angle_offset + 360)%Q 360%Q) angles.

(** Lines 125-126: [temp_df] with its index labels and the [Angle] column. *)
Definition with_angle (pca_df : list pca_row) (angles : list Q) : list temp_row :=
  map (fun ipa => mk_temp_row ipa.1.1 ipa.1.2 ipa.2)
      (combine (combine (seq 0 (length pca_df)) pca_df) angles).

(** Lines 134-139: the label runs, one loop step per [i]. *)
Fixpoint label_runs (cluster_labels : list ascii)
         (participants_per_cluster clusters_with_extra : Z)
         (indices : list Z) (assignments : list ascii) : result (list ascii) :=
  match indices with
  | [] => Return assignments
  | i :: rest =>
      if i <? clusters_with_extra then
        lab ← Py.getitem cluster_labels i;
        label_runs cluster_labels participants_per_cluster clusters_with_extra rest
                   (assignments ++ Py.replicate1 lab (participants_per_cluster + 1))
      else
        lab ← Py.getitem cluster_labels i;
        label_runs cluster_labels participants_per_cluster clusters_with_extra rest
                   (assignments ++ Py.replicate1 lab participants_per_cluster)
  end.

(** Line 145: [temp_df_sorted['Cluster'] = assignments]; pandas refuses a
    list whose length differs from the number of rows. *)
Definition set_cluster (temp_df_sorted : list temp_row) (assignments : list ascii)
  : result (list (temp_row * ascii)) :=
  if Nat.eqb (length assignments) (length temp_df_sorted)
  then Return (combine temp_df_sorted assignments)
  else Raise ValueError.

(** Lines 148-149: the dictionary from index label to cluster label, and
    [temp_df] with the [Cluster] column read from it. *)
Definition map_back (temp_df : list temp_row) (temp_df_sorted : list (temp_row * ascii))
  : list out_row :=
  let cluster_mapping :=
    dict_of_zip (map (fun ra => t_index ra.1) temp_df_sorted) (map snd temp_df_sorted) in
  map (fun r => mk_out_row (t_index r) (t_point r) (t_Angle r) (cluster_mapping !! t_index r))
      temp_df.

(** Lines 119-156: one pass of the offset loop. [Return None] is a pass whose
    balance check fails. *)
Definition trial (pca_df : list pca_row) (num_clusters : Z)
           (participants_per_cluster clusters_with_extra : Z)
           (cluster_labels : list ascii) (initial_angle_offset : Z)
  : result (option (list out_row)) :=
  let total_participants := length pca_df in
  let temp_df := with_angle pca_df (angles_degrees pca_df initial_angle_offset) in
  let temp_df_sorted := sort_values temp_df in
  assignments ← label_runs cluster_labels participants_per_cluster clusters_with_extra
                            (Py.range num_clusters) [];
  let assignments := firstn total_participants assignments in
  temp_df_sorted ← set_cluster temp_df_sorted assignments;
  let temp_df' := map_back temp_df temp_df_sorted in
  let cluster_sizes := groupby_size (map Cluster temp_df') in
  if balanced participants_per_cluster cluster_sizes
  then Return (Some temp_df')
  else Return None.

(** Lines 118-159: the loop over the offsets; the first pass that succeeds
    returns, a pass that raises ends the call. *)
Fixpoint search (pca_df : list pca_row) (num_clusters : Z)
         (participants_per_cluster clusters_with_extra : Z)
         (cluster_labels : list ascii) (offsets : list Z)
  : result (option (list out_row * Z)) :=
  match offsets with
  | [] => Return None
  | initial_angle_offset :: rest =>
      r ← trial pca_df num_clusters participants_per_cluster clusters_with_extra
                 cluster_labels initial_angle_offset;
      match r with
      | Some temp_df => Return (Some (temp_df, initial_angle_offset))
      | None => search pca_df num_clusters participants_per_cluster clusters_with_extra
                       cluster_labels rest
      end
  end.

(** [find_optimal_clustering(pca_df, num_clusters)]; [Return None] is the
    pair [(None, None)]. *)
Definition find_optimal_clustering (pca_df : list pca_row) (num_clusters : Z)
  : result (option (list out_row * Z)) :=
  let total_participants := Z.of_nat (length pca_df) in
  participants_per_cluster ← Py.floordiv total_participants num_clusters;
  clusters_with_extra ← Py.imod total_participants num_clusters;
  let cluster_labels := Py.slice_to ABCDEF num_clusters in
  search pca_df num_clusters participants_per_cluster clusters_with_extra
         cluster_labels (Py.range3 0 360).

(** The pass of the loop of [find_optimal_clustering pca_df num_clusters] at
    one offset, with the quantities of lines 108-115 filled in. *)
Definition trial_at (pca_df : list pca_row) (num_clusters : Z) (initial_angle_offset : Z)
  : result (option (list out_row)) :=
  let total_participants := Z.of_nat (length pca_df) in
  trial pca_df num_clusters
        (total_participants / num_clusters) (total_participants mod num_clusters)
        (Py.slice_to ABCDEF num_clusters) initial_angle_offset.

End Partitioner.

(** ** The boundary calculator

    Lines 176-195 of [visualize_clusters]. The frame it receives from [main]
    is the one [find_optimal_clustering] returned; it is embedded for frames
    whose [Cluster] column holds labels only ([labelled] is that reading of a
    returned frame). *)

Record vis_row : Type := mk_vis_row { v_Cluster : ascii; v_Angle : Q }.

Definition labelled (df : list out_row) : option (list vis_row) :=
  mapM (fun r => c ← Cluster r; Some (mk_vis_row c (Angle r))) df.

(** [Series.unique()]: the values in order of first appearance. *)
Fixpoint unique (xs : list ascii) : list ascii :=
  match xs with
  | [] => []
  | x :: t => x :: filter (fun y => y <> x) (unique t)
  end.

(** [Series.min()] and [Series.max()] of a float series: NaN when empty. *)
Definition series_min (xs : list Q) : option Q :=
  fold_right (fun x acc => Some (match acc with Some y => Qmin x y | None => x end)) None xs.

Definition series_max (xs : list Q) : option Q :=
  fold_right (fun x acc => Some (match acc with Some y => Qmax x y | None => x end)) None xs.

(** [df[df['Cluster'] == c]['Angle']] *)
Definition angles_of (df : list vis_row) (c : ascii) : list Q :=
  map v_Angle (filter (fun r => v_Cluster r = c) df).

(** Lines 176-177: the labels that occur, ordered by their smallest angle. *)
Definition ordered_labels (df : list vis_row) : list ascii :=
  Py.sorted (fun x => series_min (angles_of df x)) (unique (map v_Cluster df)).

(** Lines 181-191: the boundary after group [i], before it is mirrored. *)
Definition boundary_angle (df : list vis_row) (cluster_labels : list ascii) (i : Z)
  : result (option Q) :=
  current_cluster ← Py.getitem cluster_labels i;
  j ← Py.imod (i + 1) (Z.of_nat (length cluster_labels));
  next_cluster ← Py.getitem cluster_labels j;
  let max_angle_current := series_max (angles_of df current_cluster) in
  let min_angle_next := series_min (angles_of df next_cluster) in
  let min_angle_next :=
    if Py.flt min_angle_next max_angle_current
    then Py.fadd min_angle_next (Some 360%Q)
    else min_angle_next in
  Return (Py.frem (Py.fdiv (Py.fadd max_angle_current min_angle_next) (Some 2%Q)) (Some 360%Q)).

(** Lines 179-192: the loop; line 192 appends [-boundary_angle + 30]. *)
Fixpoint boundary_loop (df : list vis_row) (cluster_labels : list ascii)
         (indices : list Z) (boundary_angles : list (option Q)) : result (list (option Q)) :=
  match indices with
  | [] => Return boundary_angles
  | i :: rest =>
      b ← boundary_angle df cluster_labels i;
      boundary_loop df cluster_labels rest
                    (boundary_angles ++ [Py.fadd (Py.fneg b) (Some 30%Q)])
  end.

Definition boundary_angles (df : list vis_row) : result (list (option Q)) :=
  let cluster_labels := ordered_labels df in
  boundary_loop df cluster_labels (Py.range (Z.of_nat (length cluster_labels))) [].

(** [visualize_clusters(df_with_clusters, central_point)], lines 176-195: the
    sorted sequence of boundary angles the lines are drawn from; the plotting
    calls are left out. *)
Definition visualize_clusters (df_with_clusters : list vis_row) : result (list (option Q)) :=
  boundary_angles ← boundary_angles df_with_clusters;
  Return (Py.sorted (fun b => b) boundary_angles).

(** *** The boundary rule in the words of the specification

    Groups in ascending order of their smallest angle; every group is paired
    with its cyclic successor; the boundary is the midpoint of the largest
    angle of the group and the smallest angle of the successor, the latter
    raised by 360 when it is below the former, reduced modulo 360. *)

Module Spec.

Definition midpoint (current next : list Q) : option Q :=
  M ← series_max current;
  m ← series_min next;
  let m' := if Py.flt (Some m) (Some M) then (m + 360)%Q else m in
  Some (Py.fmod ((M + m') / 2)%Q 360%Q).

Definition cyclic_pairs {A : Type} (groups : list A) : list (A * A) :=
  combine groups (rotate 1 groups).

Definition boundaries (df : list vis_row) : list (option Q) :=
  map (fun cn => midpoint (angles_of df cn.1) (angles_of df cn.2))
      (cyclic_pairs (ordered_labels df)).

End Spec.

(** ** Vocabulary of the statements *)

(** The number of rows of a returned frame that carry label [x]. *)
Definition group_size (x : ascii) (column : list (option ascii)) : nat :=
  length (filter (fun c => c = Some x) column).

(** The length of run [i] of the split (lines 135-139). *)
Definition run_size (per extra i : Z) : nat :=
  Z.to_nat (if i <? extra then per + 1 else per).

(** The runs of the labels [ls], the first of which is run number [i]. *)
Fixpoint runs (per extra : Z) (ls : list ascii) (i : Z) : list ascii :=
  match ls with
  | [] => []
  | l :: t => repeat l (run_size per extra i) ++ runs per extra t (i + 1)
  end.

Fixpoint run_sizes (per extra : Z) (ls : list ascii) (i : Z) : list nat :=
  match ls with
  | [] => []
  | _ :: t => run_size per extra i :: run_sizes per extra t (i + 1)
  end.

(** The frame a pass of the offset loop builds when all the runs have a
    label: [temp_df] with the runs of the first [K] labels read back through
    the dictionary. *)
Definition trial_frame (arctan2 : Q -> Q -> Q) (degrees : Q -> Q)
           (sort_values : list temp_row -> list temp_row)
           (pca_df : list pca_row) (K : Z) (o : Z) : list out_row :=
  let N := Z.of_nat (length pca_df) in
  let temp_df := with_angle pca_df (angles_degrees arctan2 degrees pca_df o) in
  map_back temp_df
           (combine (sort_values temp_df) (runs (N / K) (N mod K) (Py.slice_to ABCDEF K) 0)).

(** The sizes of the groups of the labels [labels] in a returned frame. *)
Definition group_sizes (labels : list ascii) (df : list out_row) : list nat :=
  map (fun x => group_size x (map Cluster df)) labels.

(** The balance invariant for [N] participants in the [K] groups labelled by
    the first [K] letters: every size is [N / K] or [N / K + 1], the sizes sum
    to [N], and at most [N mod K] groups have the larger size. *)
Definition balance_invariant (N K : Z) (df : list out_row) : Prop :=
  let sizes := group_sizes (Py.slice_to ABCDEF K) df in
  Forall (fun s => Z.of_nat s = N / K \/ Z.of_nat s = N / K + 1) sizes
  /\ Z.of_nat (sum_list sizes) = N
  /\ Z.of_nat (length (filter (fun s => Z.of_nat s = N / K + 1) sizes)) <= N mod K.

(** Every row of the frame carries one of the labels. *)
Definition all_labelled (labels : list ascii) (df : list out_row) : Prop :=
  Forall (fun r => exists x, Cluster r = Some x /\ x ∈ labels) df.

(** A pass of the offset loop passes the balance check when it hands back a
    frame. *)
Definition passes (r : result (option (list out_row))) : Prop :=
  exists df, r = Return (Some df).





(** Line 192: the value appended for the boundary [b]. *)
Definition mirrored (b : option Q) : option Q := Py.fadd (Py.fneg b) (Some 30%Q).

(** A float that is a number in the half-open interval from [lo] to [hi]. *)
Definition within (lo hi : Q) (a : option Q) : Prop :=
  exists q, a = Some q /\ (lo <= q < hi)%Q.

(** A boundary list with its fractions in lowest terms. *)
Definition reduced (r : result (list (option Q))) : result (list (option Q)) :=
  match r with
  | Return bs => Return (map (option_map Qred) bs)
  | Raise e => Raise e
  end.

(** Rows in ascending order of [Angle]. *)
Definition ascending (rows : list temp_row) : Prop :=
  StronglySorted (fun a b => (t_Angle a <= t_Angle b)%Q) rows.

(** What a call shows of its result: the [Cluster] column of the returned
    frame, in row order, and the offset. *)
Definition outcome (r : result (option (list out_row * Z)))
  : result (option (list (option ascii) * Z)) :=
  match r with
  | Return (Some (df, o)) => Return (Some (map Cluster df, o))
  | Return None => Return None
  | Raise e => Raise e
  end.

(** ** A reference instance of the library parameters

    Used to run the embedding on concrete frames. [pi] is 355/113 on both
    sides of the radian/degree conversion, so the eight directions that are
    multiples of 45 degrees come out exact; inside an octant the arc tangent is
    interpolated linearly. The sort is a stable insertion sort on [Angle]. *)

Module Reference.

Definition pi : Q := (355 # 113)%Q.

(** The angle of the direction [(x, y)] in units of 45 degrees, in (-4, 4]. *)
Definition octant (y x : Q) : Q :=
  if Qle_bool (Qabs y) (Qabs x) then
    if Qeq_bool x 0 then 0%Q
    else if Qle_bool 0 x then (y / x)%Q
    else if Qle_bool 0 y then (4 + y / x)%Q
    else (- (4) + y / x)%Q
  else
    if Qle_bool 0 y then (2 - x / y)%Q else (- (2) - x / y)%Q.

Definition arctan2 (y x : Q) : Q := (octant y x * pi / 4)%Q.

Definition degrees (r : Q) : Q := (r * 180 / pi)%Q.

Fixpoint insert_row (r : temp_row) (rows : list temp_row) : list temp_row :=
  match rows with
  | [] => [r]
  | h :: t =>
      if Qle_bool (t_Angle r) (t_Angle h) then r :: rows else h :: insert_row r t
  end.

Definition sort_values (rows : list temp_row) : list temp_row :=
  fold_right insert_row [] rows.

Definition partition : list pca_row -> Z -> result (option (list out_row * Z)) :=
  find_optimal_clustering arctan2 degrees sort_values.

(** A second sort into ascending [Angle] order: a row goes behind the rows of
    equal angle that follow it in the frame. *)
Fixpoint insert_row_behind (r : temp_row) (rows : list temp_row) : list temp_row :=
  match rows with
  | [] => [r]
  | h :: t =>
      if Qle_bool (t_Angle h) (t_Angle r) then h :: insert_row_behind r t else r :: rows
  end.

Definition sort_values_behind (rows : list temp_row) : list temp_row :=
  fold_right insert_row_behind [] rows.

(** A sort that breaks the contract, to take the search beyond its first
    pass: when the first row of the frame is at angle 0 it hands back that
    row in every position; otherwise it sorts. *)
Definition sort_values_lossy (rows : list temp_row) : list temp_row :=
  match rows with
  | [] => []
  | h :: _ => if Qeq_bool (t_Angle h) 0 then repeat h (length rows) else sort_values rows
  end.

End Reference.

(** Equality of rows is decidable (fractions are compared as written). *)
#[global] Instance Q_eq_dec : EqDecision Q.
Proof. solve_decision. Defined.

#[global] Instance pca_row_eq_dec : EqDecision pca_row.
Proof. solve_decision. Defined.

#[global] Instance temp_row_eq_dec : EqDecision temp_row.
Proof. solve_decision. Defined.

(** ** Example inputs *)

Definition participant (x y : Z) (id : nat) : pca_row :=
  mk_pca_row (inject_Z x) (inject_Z y) id.

(** Three participants, centroid (0, 0), at 45, 135 and -90 degrees. *)
Definition three_points : list pca_row :=
  [participant 1 1 1; participant (-1) 1 2; participant 0 (-2) 3].

(** Three participants, centroid (0, 0); the first and the third get the same
    angle. *)
Definition tied_points : list pca_row :=
  [participant 1 0 1; participant (-1) 0 2; participant 0 0 3].

(** Seven participants on the axes and diagonals, centroid (0, 0). *)
Definition seven_points : list pca_row :=
  [participant 1 0 1; participant (-1) 0 2; participant 0 1 3; participant 0 (-1) 4;
   participant 1 1 5; participant (-1) (-1) 6; participant 0 0 7].

(** Eight participants, centroid (0, 0). *)
Definition eight_points : list pca_row :=
  [participant 1 0 1; participant (-1) 0 2; participant 0 1 3; participant 0 (-1) 4;
   participant 1 1 5; participant (-1) (-1) 6; participant 1 (-1) 7; participant (-1) 1 8].

Definition sector_row (c : ascii) (a : Z) : vis_row := mk_vis_row c (inject_Z a).

(** Two groups away from the seam. *)
Definition two_sectors : list vis_row :=
  [sector_row "A" 10; sector_row "A" 20; sector_row "B" 100; sector_row "B" 200].

(** Three groups; group A ends at 350 degrees and group B starts at 10. *)
Definition seam_sectors : list vis_row :=
  [sector_row "A" 300; sector_row "A" 350; sector_row "B" 10; sector_row "B" 40;
   sector_row "C" 100; sector_row "C" 200].

(** The frame of [tied_points] with its angles at offset 0: rows 0 and 2 at
    angle 0, row 1 at angle 180. *)
Definition tied_rows : list temp_row :=
  with_angle tied_points (angles_degrees Reference.arctan2 Reference.degrees tied_points 0).

(** ** The rest of the script

    The configuration, the vote encoding of [load_and_preprocess_data], and
    what [visualize_clusters] and [main] take from a returned frame besides
    the boundaries. *)

(** Line 24. *)
Definition NUM_CLUSTERS : Z := 6.

(** Lines 30-37. *)
Definition CLUSTER_COLORS : gmap ascii string :=
  list_to_map [("A"%char, "#264653"%string); ("B"%char, "#e76f51"%string);
               ("C"%char, "#2a9d8f"%string); ("D"%char, "#e9c46a"%string);
               ("E"%char, "#f4a261"%string); ("F"%char, "#00b4d8"%string)].

(** Line 173: [df_with_clusters['Cluster'].map(CLUSTER_COLORS)]; a label
    without a colour, like a NaN label, gives NaN. *)
Definition Color (df_with_clusters : list out_row) : list (option string) :=
  map (fun r => c ← Cluster r; CLUSTER_COLORS !! c) df_with_clusters.

(** Line 259: [optimal_grouping[['pid', 'Cluster']]], the rows written to the
    assignments file. *)
Definition assignments_csv (optimal_grouping : list out_row) : list (nat * option ascii) :=
  map (fun r => (pid (point r), Cluster r)) optimal_grouping.

(** Line 206: the coordinates of the rows that carry a label. *)
Definition cluster_points (df_with_clusters : list out_row) (cluster_label : ascii)
  : list (Q * Q) :=
  map (fun r => (PC1 (point r), PC2 (point r)))
      (filter (fun r => Cluster r = Some cluster_label) df_with_clusters).

(** Lines 204-210 of [visualize_clusters]: for the labels in the order of
    [CLUSTER_COLORS], the hull of the points of every group with more than two
    members. [ConvexHull] is scipy's; it gives the simplices of the hull, or
    [None] where it raises [QhullError] (points that span no area). The value
    is the hulls filled, or [None] when a call of [ConvexHull] raised. *)
Fixpoint fill_cluster_areas (ConvexHull : list (Q * Q) -> option (list (nat * nat)))
         (df_with_clusters : list out_row) (labels : list ascii)
  : option (list (ascii * list (nat * nat))) :=
  match labels with
  | [] => Some []
  | cluster_label :: rest =>
      if (2 <? length (cluster_points df_with_clusters cluster_label))%nat then
        hull ← ConvexHull (cluster_points df_with_clusters cluster_label);
        filled ← fill_cluster_areas ConvexHull df_with_clusters rest;
        Some ((cluster_label, hull) :: filled)
      else fill_cluster_areas ConvexHull df_with_clusters rest
  end.

(** What [main] ends with: the boundary angles drawn, the hulls filled and the
    rows saved (lines 253-260); the error message of line 266; or the
    [QhullError] of line 208, raised inside [visualize_clusters] before
    anything is saved. *)
Inductive main_outcome : Type :=
| Saved (boundary_angles : list (option Q)) (hulls : list (ascii * list (nat * nat)))
        (assignments : list (nat * option ascii))
| CouldNotFind
| QhullError.

(** [main], lines 250-266, from the frame [apply_pca] returned. An exception
    of [find_optimal_clustering] ends the run. The keys of [CLUSTER_COLORS]
    are the letters of [ABCDEF], in this order. The value is [None] for a
    returned frame with a NaN label, for which the boundary computation is
    not embedded. *)
Definition main_from_pca (arctan2 : Q -> Q -> Q) (degrees : Q -> Q)
           (sort_values : list temp_row -> list temp_row)
           (ConvexHull : list (Q * Q) -> option (list (nat * nat)))
           (pca_df : list pca_row) : option (result main_outcome) :=
  match find_optimal_clustering arctan2 degrees sort_values pca_df NUM_CLUSTERS with
  | Raise e => Some (Raise e)
  | Return None => Some (Return CouldNotFind)
  | Return (Some (optimal_grouping, angle_offset)) =>
      df_with_clusters ← labelled optimal_grouping;
      Some (boundary_angles ← visualize_clusters df_with_clusters;
            match fill_cluster_areas ConvexHull optimal_grouping ABCDEF with
            | None => Return QhullError
            | Some hulls =>
                Return (Saved boundary_angles hulls (assignments_csv optimal_grouping))
            end)
  end.

(** Whether all points lie on one line (or coincide). *)
Definition flat (points : list (Q * Q)) : bool :=
  forallb (fun p =>
    forallb (fun q =>
      forallb (fun r => Qeq_bool ((q.1 - p.1) * (r.2 - p.2)) ((q.2 - p.2) * (r.1 - p.1)))
              points) points) points.

(** A stand-in for [ConvexHull] in the examples: it raises where the points
    span no area, as qhull does, and lists no simplex otherwise. *)
Definition ConvexHull_flat (points : list (Q * Q)) : option (list (nat * nat)) :=
  if flat points then None else Some [].

(** Thirteen participants on one line, centroid (0, 0). *)
Definition thirteen_flat : list pca_row :=
  map (fun i => participant (Z.of_nat i - 6) 0 (S i)) (seq 0 13).

(** A cell of the frame [pd.read_csv] returns: empty (NaN), a string, or a
    number. *)
Inductive raw_cell : Type :=
| Empty
| Str (s : string)
| Num (q : Q).

(** A cell of the preprocessed frame. *)
Inductive cell : Type :=
| Text (s : string)
| Number (q : Q).

(** Line 55: [Series.map({'yes': 1, 'no': 0, np.nan: 0.5})]; a value that is
    no key of the dictionary becomes NaN. *)
Definition vote_map (c : raw_cell) : option Q :=
  match c with
  | Empty => Some (1 # 2)%Q
  | Str s => if String.eqb s "yes" then Some 1%Q
             else if String.eqb s "no" then Some 0%Q
             else None
  | Num _ => None
  end.

(** Line 58: [fillna(0.5)] on a mapped column, which holds floats. *)
Definition fillna_mapped (c : option Q) : cell :=
  match c with
  | Some q => Number q
  | None => Number (1 # 2)%Q
  end.

(** [load_and_preprocess_data], lines 50-60, from the frame that was read: a
    frame is the list of its columns. Line 55 maps every column but the first;
    [fillna_first] is what [fillna(0.5)] of line 58 does to the first column,
    which is left as read: this is pandas' business and differs between its
    versions ([None]: it raises). *)
Definition load_and_preprocess_data (fillna_first : list raw_cell -> option (list cell))
           (df : list (list raw_cell)) : option (list (list cell)) :=
  match df with
  | [] => Some []
  | first_column :: vote_columns =>
      first_column' ← fillna_first first_column;
      Some (first_column'
            :: map (fun col => map (fun c => fillna_mapped (vote_map c)) col) vote_columns)
  end.

(** Two behaviours of [fillna(0.5)] on a column as read: an object column
    takes 0.5 in its empty cells; a string column with an empty cell refuses
    the number. *)
Definition fillna_object (col : list raw_cell) : option (list cell) :=
  Some (map (fun c => match c with
                      | Empty => Number (1 # 2)%Q
                      | Str s => Text s
                      | Num q => Number q
                      end) col).

Definition fillna_string (col : list raw_cell) : option (list cell) :=
  if existsb (fun c => match c with Empty => true | _ => false end) col
     && existsb (fun c => match c with Str _ => true | _ => false end) col
  then None
  else fillna_object col.

(** The position of the boundary between a group that ends at angle [M] and
    its successor that starts at angle [m]: between the two, through the 0/360
    seam when the successor starts below [M]. *)
Definition on_arc (M m b : Q) : Prop :=
  ((M <= m)%Q -> (M <= b <= m)%Q)
  /\ ((m < M)%Q -> (M <= b < 360)%Q \/ (0 <= b <= m)%Q).

(** * Properties *)

(** ** The exception monad *)

Lemma bind_Return {A B : Type} (a : A) (k : A -> result B) :
  (Return a ≫= k) = k a.
Proof. reflexivity. Qed.

Lemma bind_Raise {A B : Type} (e : exn) (k : A -> result B) :
  (Raise e ≫= k) = Raise e.
Proof. reflexivity. Qed.

(** ** Python built-ins *)

Lemma getitem_lookup {A : Type} (l : list A) (a : nat) (x : A) :
  l !! a = Some x -> Py.getitem l (Z.of_nat a) = Return x.
Proof.
  intros Hx. unfold Py.getitem.
  destruct (Z.ltb_spec (Z.of_nat a) 0) as [Hneg|Hneg]; [lia|].
  destruct (Z.ltb_spec (Z.of_nat a) 0) as [Hneg'|_]; [lia|].
  rewrite Nat2Z.id.
  replace (nth_error l a) with (l !! a); [now rewrite Hx|].
  clear. revert a. induction l as [|h t IH]; intros [|a]; simpl; auto.
Qed.

Lemma getitem_beyond {A : Type} (l : list A) (i : Z) :
  Z.of_nat (length l) <= i -> Py.getitem l i = Raise IndexError.
Proof.
  intros Hi. unfold Py.getitem.
  destruct (Z.ltb_spec i 0) as [Hneg|Hneg]; [lia|].
  destruct (Z.ltb_spec i 0) as [Hneg'|_]; [lia|].
  destruct (nth_error l (Z.to_nat i)) eqn:Hnth; [|reflexivity].
  assert (Hsome : nth_error l (Z.to_nat i) <> None) by congruence.
  apply nth_error_Some in Hsome. lia.
Qed.

Lemma range_unfold (n : Z) : Py.range n = map Z.of_nat (seq 0 (Z.to_nat n)).
Proof. reflexivity. Qed.

Lemma slice_to_ABCDEF_length (k : Z) :
  0 <= k <= 6 -> length (Py.slice_to ABCDEF k) = Z.to_nat k.
Proof.
  intros Hk. unfold Py.slice_to.
  destruct (Z.ltb_spec k 0) as [Hneg|Hneg]; [lia|].
  rewrite length_take. change (length ABCDEF) with 6%nat. lia.
Qed.

Lemma slice_to_ABCDEF_NoDup (k : Z) : NoDup (Py.slice_to ABCDEF k).
Proof.
  assert (Hnd : NoDup ABCDEF) by (apply (bool_decide_unpack _); vm_compute; exact I).
  unfold Py.slice_to. destruct (k <? 0).
  - eapply sublist_NoDup; [exact Hnd|apply sublist_take].
  - eapply sublist_NoDup; [exact Hnd|apply sublist_take].
Qed.

(** ** The label runs *)

Section Runs.

Variables per extra : Z.

Lemma replicate1_run_size (lab : ascii) (i : Z) :
  (if i <? extra then Py.replicate1 lab (per + 1) else Py.replicate1 lab per)
  = repeat lab (run_size per extra i).
Proof. unfold run_size, Py.replicate1. now destruct (i <? extra). Qed.

(** The loop of lines 134-139 over the indices [a, a+n) appends the runs of
    the labels at these positions, when there are that many labels. *)
Lemma label_runs_runs (labels : list ascii) (n a : nat) (acc : list ascii) :
  (a + n <= length labels)%nat ->
  label_runs labels per extra (map Z.of_nat (seq a n)) acc
  = Return (acc ++ runs per extra (take n (drop a labels)) (Z.of_nat a)).
Proof.
  revert a acc. induction n as [|n IH]; intros a acc Hlen.
  - simpl. now rewrite app_nil_r.
  - destruct (lookup_lt_is_Some_2 labels a) as [lab Hlab]; [lia|].
    cbn [seq map label_runs].
    rewrite (getitem_lookup _ _ _ Hlab).
    rewrite (drop_S _ _ _ Hlab). cbn [take runs].
    assert (Hstep : forall body : list ascii -> result (list ascii),
               (if Z.of_nat a <? extra
                then Return lab ≫= (fun l => body (acc ++ Py.replicate1 l (per + 1)))
                else Return lab ≫= (fun l => body (acc ++ Py.replicate1 l per)))
               = body (acc ++ repeat lab (run_size per extra (Z.of_nat a)))).
    { intros body. rewrite <- replicate1_run_size.
      now destruct (Z.of_nat a <? extra). }
    rewrite (Hstep (label_runs labels per extra (map Z.of_nat (seq (S a) n)))).
    rewrite IH by lia. rewrite <- app_assoc.
    now replace (Z.of_nat (S a)) with (Z.of_nat a + 1) by lia.
Qed.

(** The loop stops with [IndexError] at the first index without a label. *)
Lemma label_runs_IndexError (labels : list ascii) (n a : nat) (acc : list ascii) :
  (a <= length labels < a + n)%nat ->
  label_runs labels per extra (map Z.of_nat (seq a n)) acc = Raise IndexError.
Proof.
  revert a acc. induction n as [|n IH]; intros a acc Hlen; [lia|].
  cbn [seq map label_runs].
  destruct (decide (a = length labels)) as [->|Hne].
  - rewrite getitem_beyond by lia. now destruct (_ <? _).
  - destruct (lookup_lt_is_Some_2 labels a) as [lab Hlab]; [lia|].
    rewrite (getitem_lookup _ _ _ Hlab).
    destruct (Z.of_nat a <? extra); rewrite bind_Return; apply IH; lia.
Qed.

Lemma runs_length (ls : list ascii) (i : Z) :
  length (runs per extra ls i) = sum_list (run_sizes per extra ls i).
Proof.
  revert i. induction ls as [|l t IH]; intros i; simpl; [reflexivity|].
  now rewrite length_app, repeat_length, IH.
Qed.

(** Closed form of the total length: [per] per run and one more for every
    run whose number is below [extra]. *)
Lemma run_sizes_sum (ls : list ascii) (i : Z) :
  0 <= per -> 0 <= i ->
  Z.of_nat (sum_list (run_sizes per extra ls i))
  = Z.of_nat (length ls) * per + Z.max 0 (Z.min (Z.of_nat (length ls)) (extra - i)).
Proof.
  intros Hper. revert i. induction ls as [|l t IH]; intros i Hi.
  - simpl. lia.
  - cbn [run_sizes sum_list length]. rewrite Nat2Z.inj_add, IH by lia.
    unfold run_size, id. destruct (Z.ltb_spec i extra); lia.
Qed.

Lemma run_sizes_length (ls : list ascii) (i : Z) :
  length (run_sizes per extra ls i) = length ls.
Proof. revert i. induction ls as [|l t IH]; intros i; simpl; auto. Qed.

Lemma run_sizes_lookup (ls : list ascii) (i : Z) (j : nat) :
  (j < length ls)%nat ->
  run_sizes per extra ls i !! j = Some (run_size per extra (i + Z.of_nat j)).
Proof.
  revert i j. induction ls as [|l t IH]; intros i j Hj; simpl in *; [lia|].
  destruct j as [|j]; simpl.
  - now rewrite Z.add_0_r.
  - rewrite IH by lia. do 2 f_equal. lia.
Qed.

Lemma group_size_repeat_same (x : ascii) (n : nat) :
  group_size x (map Some (repeat x n)) = n.
Proof.
  unfold group_size. induction n as [|n IH]; simpl; [reflexivity|].
  rewrite filter_cons_True by reflexivity. simpl. now rewrite IH.
Qed.

Lemma group_size_repeat_other (x y : ascii) (n : nat) :
  x <> y -> group_size x (map Some (repeat y n)) = 0%nat.
Proof.
  intros Hxy. unfold group_size. induction n as [|n IH]; simpl; [reflexivity|].
  rewrite filter_cons_False by congruence. exact IH.
Qed.

Lemma group_size_app (x : ascii) (c1 c2 : list (option ascii)) :
  group_size x (c1 ++ c2) = (group_size x c1 + group_size x c2)%nat.
Proof. unfold group_size. now rewrite filter_app, length_app. Qed.

Lemma group_size_runs_absent (x : ascii) (ls : list ascii) (i : Z) :
  x ∉ ls -> group_size x (map Some (runs per extra ls i)) = 0%nat.
Proof.
  revert i. induction ls as [|l t IH]; intros i Hx; simpl; [reflexivity|].
  rewrite map_app, group_size_app.
  rewrite group_size_repeat_other by (intros ->; apply Hx; left).
  rewrite IH; [reflexivity|]. intros Hin. apply Hx. now right.
Qed.

(** With distinct labels, the group of the label of run [j] is run [j]. *)
Lemma group_size_runs (ls : list ascii) (i : Z) :
  NoDup ls ->
  map (fun x => group_size x (map Some (runs per extra ls i))) ls
  = run_sizes per extra ls i.
Proof.
  revert i. induction ls as [|l t IH]; intros i Hnd; [reflexivity|].
  apply NoDup_cons in Hnd as [Hl Hnd].
  cbn [map runs run_sizes]. f_equal.
  - rewrite map_app, group_size_app, group_size_repeat_same.
    rewrite group_size_runs_absent by exact Hl. lia.
  - rewrite <- (IH (i + 1) Hnd). apply map_ext_in. intros x Hx.
    rewrite map_app, group_size_app, group_size_repeat_other; [reflexivity|].
    intros ->. apply Hl. now apply list_elem_of_In.
Qed.

Lemma group_size_runs_lookup (ls : list ascii) (i : Z) (j : nat) (x : ascii) :
  NoDup ls -> ls !! j = Some x ->
  group_size x (map Some (runs per extra ls i)) = run_size per extra (i + Z.of_nat j).
Proof.
  intros Hnd Hj. pose proof (group_size_runs ls i Hnd) as Hmap.
  apply (f_equal (fun l => l !! j)) in Hmap.
  change (map ?f ls) with (f <$> ls) in Hmap.
  rewrite list_lookup_fmap, Hj, run_sizes_lookup in Hmap
    by (now apply lookup_lt_Some in Hj).
  now inversion Hmap.
Qed.

(** A label that occurs in the runs has [per] or [per + 1] rows. *)
Lemma group_size_runs_bounds (ls : list ascii) (x : ascii) :
  NoDup ls -> 0 <= per ->
  group_size x (map Some (runs per extra ls 0)) <> 0%nat ->
  per <= Z.of_nat (group_size x (map Some (runs per extra ls 0))) <= per + 1.
Proof.
  intros Hnd Hper Hocc.
  destruct (decide (x ∈ ls)) as [Hin|Hout].
  - apply list_elem_of_lookup in Hin as [j Hj].
    rewrite (group_size_runs_lookup ls 0 j x Hnd Hj). unfold run_size.
    destruct (0 + Z.of_nat j <? extra); lia.
  - now rewrite group_size_runs_absent in Hocc.
Qed.

Lemma run_sizes_bounds (ls : list ascii) (i : Z) :
  0 <= per ->
  Forall (fun s => Z.of_nat s = per \/ Z.of_nat s = per + 1) (run_sizes per extra ls i).
Proof.
  intros Hper. revert i. induction ls as [|l t IH]; intros i; simpl; constructor.
  - unfold run_size. destruct (i <? extra); lia.
  - apply IH.
Qed.

(** Only runs whose number is below [extra] have the larger size. *)
Lemma run_sizes_larger (ls : list ascii) (i : Z) :
  0 <= per ->
  Z.of_nat (length (filter (fun s => Z.of_nat s = per + 1) (run_sizes per extra ls i)))
  <= Z.max 0 (extra - i).
Proof.
  intros Hper. revert i. induction ls as [|l t IH]; intros i; simpl; [lia|].
  specialize (IH (i + 1)). rewrite filter_cons.
  destruct (decide _) as [Hlarge|_]; simpl; [|lia].
  unfold run_size in Hlarge. destruct (Z.ltb_spec i extra); lia.
Qed.

Lemma runs_labels (ls : list ascii) (i : Z) (x : ascii) :
  x ∈ runs per extra ls i -> x ∈ ls.
Proof.
  revert i. induction ls as [|l t IH]; intros i; simpl; [trivial|].
  rewrite elem_of_app. intros [Hin|Hin].
  - apply list_elem_of_In, repeat_spec in Hin. subst. left.
  - right. eapply IH, Hin.
Qed.

End Runs.

(** ** Dictionaries, group sizes and the balance check *)

Lemma fold_insert_lookup_fresh (l : list (nat * ascii)) (m : gmap nat ascii) (k : nat) :
  k ∉ l.*1 ->
  fold_left (fun m kv => <[kv.1 := kv.2]> m) l m !! k = m !! k.
Proof.
  revert m. induction l as [|[k' v'] t IH]; intros m Hk; simpl; [reflexivity|].
  rewrite fmap_cons, not_elem_of_cons in Hk. destruct Hk as [Hne Hk].
  rewrite IH by exact Hk. simpl in *. now rewrite lookup_insert_ne by congruence.
Qed.

Lemma fold_insert_lookup (l : list (nat * ascii)) (m : gmap nat ascii) (k : nat) (v : ascii) :
  NoDup l.*1 -> (k, v) ∈ l ->
  fold_left (fun m kv => <[kv.1 := kv.2]> m) l m !! k = Some v.
Proof.
  revert m. induction l as [|[k' v'] t IH]; intros m Hnd Hin.
  - now apply elem_of_nil in Hin.
  - rewrite fmap_cons in Hnd. apply NoDup_cons in Hnd as [Hfresh Hnd].
    apply elem_of_cons in Hin as [Heq|Hin]; simpl.
    + inversion Heq; subst. rewrite fold_insert_lookup_fresh by exact Hfresh.
      simpl. apply lookup_insert_eq.
    + now apply IH.
Qed.

(** Looking the keys up again gives the values back, when no key repeats. *)
Lemma dict_of_zip_lookup (keys : list nat) (values : list ascii) :
  NoDup keys -> length keys = length values ->
  map (fun k => dict_of_zip keys values !! k) keys = map Some values.
Proof.
  intros Hnd Hlen.
  assert (Hall : forall k v, (k, v) ∈ combine keys values ->
                             dict_of_zip keys values !! k = Some v).
  { intros k v Hin. apply fold_insert_lookup; [|exact Hin].
    change (combine keys values) with (zip keys values).
    now rewrite fst_zip by lia. }
  revert Hall. generalize (dict_of_zip keys values). clear Hnd.
  revert values Hlen. induction keys as [|k ks IH]; intros [|v vs] Hlen d Hall;
    simpl in *; try discriminate; [reflexivity|].
  f_equal.
  - apply Hall. left.
  - apply IH; [lia|]. intros k' v' Hin. apply Hall. now right.
Qed.

Lemma groupby_size_lookup (column : list (option ascii)) (x : ascii) :
  groupby_size column !! x
  = if decide (group_size x column = 0%nat) then None else Some (group_size x column).
Proof.
  unfold group_size. induction column as [|c t IH]; simpl.
  - apply lookup_empty.
  - destruct c as [y|].
    + destruct (decide (y = x)) as [->|Hne].
      * rewrite lookup_insert_eq, filter_cons_True by reflexivity.
        fold (groupby_size t). rewrite IH. cbn [length].
        destruct (decide (S _ = 0%nat)) as [Hz|_]; [discriminate Hz|].
        f_equal. destruct (decide (_ = 0%nat)) as [Hz|_]; simpl; congruence.
      * rewrite lookup_insert_ne by exact Hne.
        rewrite filter_cons_False by congruence. exact IH.
    + rewrite filter_cons_False by congruence. exact IH.
Qed.

Lemma size_min_elem (xs : list nat) (m : nat) : size_min xs = Some m -> m ∈ xs.
Proof.
  revert m. induction xs as [|x t IH]; intros m; simpl; [discriminate|].
  fold (size_min t). destruct (size_min t) as [y|]; intros [= <-].
  - destruct (Nat.min_spec x y) as [[_ ->]|[_ ->]]; [left|right; now apply IH].
  - left.
Qed.

Lemma size_max_elem (xs : list nat) (m : nat) : size_max xs = Some m -> m ∈ xs.
Proof.
  revert m. induction xs as [|x t IH]; intros m; simpl; [discriminate|].
  fold (size_max t). destruct (size_max t) as [y|]; intros [= <-].
  - destruct (Nat.max_spec x y) as [[_ ->]|[_ ->]]; [right; now apply IH|left].
  - left.
Qed.

Lemma size_min_nil_iff (xs : list nat) : size_min xs = None <-> xs = [].
Proof. destruct xs; simpl; split; congruence. Qed.

Lemma size_max_nil_iff (xs : list nat) : size_max xs = None <-> xs = [].
Proof. destruct xs; simpl; split; congruence. Qed.

(** No group at all: the check fails (both extremes are NaN). *)
Lemma balanced_empty (per : Z) : balanced per ∅ = false.
Proof. unfold balanced. now rewrite map_to_list_empty. Qed.

(** The check passes when some label occurs and every label that occurs has
    [per] or [per + 1] rows. *)
Lemma balanced_intro (per : Z) (column : list (option ascii)) :
  (exists x, group_size x column <> 0%nat) ->
  (forall x, group_size x column <> 0%nat ->
             per <= Z.of_nat (group_size x column) <= per + 1) ->
  balanced per (groupby_size column) = true.
Proof.
  intros [x0 Hx0] Hall. unfold balanced.
  set (sizes := (map_to_list (groupby_size column)).*2).
  assert (Hsz : forall s, s ∈ sizes -> per <= Z.of_nat s <= per + 1).
  { intros s Hs. apply list_elem_of_fmap in Hs as [[x s'] [-> Hin]].
    apply elem_of_map_to_list in Hin. rewrite groupby_size_lookup in Hin.
    destruct (decide _) as [|Hne]; [discriminate|]. inversion Hin; subst.
    now apply Hall. }
  assert (Hne : sizes <> []).
  { intros Hnil. assert (Hin : group_size x0 column ∈ sizes).
    { apply list_elem_of_fmap. exists (x0, group_size x0 column). split; [reflexivity|].
      apply elem_of_map_to_list. rewrite groupby_size_lookup.
      now destruct (decide _). }
    rewrite Hnil in Hin. now apply elem_of_nil in Hin. }
  destruct (size_min sizes) as [mn|] eqn:Hmn; [|now apply size_min_nil_iff in Hmn].
  destruct (size_max sizes) as [mx|] eqn:Hmx; [|now apply size_max_nil_iff in Hmx].
  apply size_min_elem, Hsz in Hmn. apply size_max_elem, Hsz in Hmx.
  apply andb_true_intro. split; apply Z.leb_le; lia.
Qed.

(** ** The partitioner *)

Lemma range3_0_360 : Py.range3 0 360 = 0 :: Py.range3 1 360.
Proof. reflexivity. Qed.

Lemma range3_split (pre post : list Z) (o : Z) :
  Py.range3 0 360 = pre ++ o :: post ->
  0 <= o < 360 /\ forall o', 0 <= o' < o -> o' ∈ pre.
Proof.
  unfold Py.range3. change (Z.to_nat (360 - 0)) with 360%nat.
  intros Hsplit.
  assert (Hlen : (length pre < 360)%nat).
  { apply (f_equal length) in Hsplit.
    rewrite length_map, length_seq, length_app in Hsplit. simpl in Hsplit. lia. }
  assert (Ho : o = Z.of_nat (length pre)).
  { apply (f_equal (fun l => l !! length pre)) in Hsplit.
    rewrite list_lookup_middle in Hsplit by reflexivity.
    change (map ?f ?l) with (f <$> l) in Hsplit.
    rewrite list_lookup_fmap, lookup_seq_lt in Hsplit by exact Hlen.
    simpl in Hsplit. inversion Hsplit. lia. }
  split; [lia|]. intros o' Ho'.
  assert (Hpre : pre = take (length pre) (map (fun i => 0 + Z.of_nat i) (seq 0 360))).
  { rewrite Hsplit, take_app_length. reflexivity. }
  rewrite Hpre. apply list_elem_of_lookup. exists (Z.to_nat o').
  rewrite lookup_take_lt by lia.
  change (map ?f ?l) with (f <$> l).
  rewrite list_lookup_fmap, lookup_seq_lt by lia. simpl. f_equal. lia.
Qed.

Section PartitionerFacts.

Variable arctan2 : Q -> Q -> Q.
Variable degrees : Q -> Q.
Variable sort_values : list temp_row -> list temp_row.

Lemma angles_degrees_length (pca_df : list pca_row) (o : Z) :
  length (angles_degrees arctan2 degrees pca_df o) = length pca_df.
Proof. unfold angles_degrees. now rewrite !length_map. Qed.

Lemma with_angle_length (pca_df : list pca_row) (angles : list Q) :
  length angles = length pca_df ->
  length (with_angle pca_df angles) = length pca_df.
Proof.
  intros Hlen. unfold with_angle.
  rewrite length_map, !length_combine, length_seq. lia.
Qed.

Lemma with_angle_index (pca_df : list pca_row) (angles : list Q) :
  length angles = length pca_df ->
  map t_index (with_angle pca_df angles) = seq 0 (length pca_df).
Proof.
  intros Hlen. unfold with_angle. rewrite map_map. simpl.
  transitivity ((zip (zip (seq 0 (length pca_df)) pca_df) angles).*1.*1).
  - now rewrite <- list_fmap_compose.
  - rewrite !fst_zip; [reflexivity|rewrite length_seq; lia|].
    rewrite length_zip, length_seq. lia.
Qed.

(** The search returns at the first offset whose pass succeeds, after
    passes that all failed the balance check. *)
Lemma search_first (pca_df : list pca_row) (K per extra : Z) (labels : list ascii)
      (offsets : list Z) (df : list out_row) (o : Z) :
  search arctan2 degrees sort_values pca_df K per extra labels offsets = Return (Some (df, o)) ->
  exists pre post,
    offsets = pre ++ o :: post
    /\ trial arctan2 degrees sort_values pca_df K per extra labels o = Return (Some df)
    /\ Forall (fun o' => trial arctan2 degrees sort_values pca_df K per extra labels o'
                         = Return None) pre.
Proof.
  induction offsets as [|o0 rest IH]; simpl; [discriminate|].
  destruct (trial arctan2 degrees sort_values pca_df K per extra labels o0)
    as [[df0|]|e] eqn:Htrial; simpl.
  - intros [= <- <-]. exists [], rest. repeat split; [exact Htrial|constructor].
  - intros Hrest. destruct (IH Hrest) as (pre & post & -> & Ho & Hpre).
    exists (o0 :: pre), post. repeat split; [exact Ho|now constructor].
  - discriminate.
Qed.

(** A pass that raises ends the search at once. *)
Lemma search_raise (pca_df : list pca_row) (K per extra : Z) (labels : list ascii)
      (o : Z) (rest : list Z) (e : exn) :
  trial arctan2 degrees sort_values pca_df K per extra labels o = Raise e ->
  search arctan2 degrees sort_values pca_df K per extra labels (o :: rest) = Raise e.
Proof. intros Htrial. simpl. now rewrite Htrial. Qed.

(** Passes that all fail the check exhaust the search. *)
Lemma search_exhausted (pca_df : list pca_row) (K per extra : Z) (labels : list ascii)
      (offsets : list Z) :
  (forall o, trial arctan2 degrees sort_values pca_df K per extra labels o = Return None) ->
  search arctan2 degrees sort_values pca_df K per extra labels offsets = Return None.
Proof.
  intros Hfail. induction offsets as [|o rest IH]; simpl; [reflexivity|].
  now rewrite Hfail.
Qed.

End PartitionerFacts.

(** ** Every pass succeeds when there are labels for all the runs *)

Section Balance.

Variable arctan2 : Q -> Q -> Q.
Variable degrees : Q -> Q.
Variable sort_values : list temp_row -> list temp_row.

(** What the passes rely on: sorting reorders the rows, it neither drops nor
    repeats one. *)
Hypothesis sort_values_perm : forall rows, sort_values rows ≡ₚ rows.

(** Reading the labels back through the dictionary is a reordering of the
    label list, when the index labels are distinct. *)
Lemma map_back_clusters (temp_df temp_df_sorted : list temp_row) (assignments : list ascii) :
  NoDup (map t_index temp_df) ->
  temp_df_sorted ≡ₚ temp_df ->
  length assignments = length temp_df_sorted ->
  map Cluster (map_back temp_df (combine temp_df_sorted assignments))
  ≡ₚ map Some assignments.
Proof.
  intros Hnd Hperm Hlen. unfold map_back.
  rewrite map_map. cbn [Cluster].
  change (combine ?a ?b) with (zip a b).
  assert (Hkeys : map (fun ra : temp_row * ascii => t_index ra.1) (zip temp_df_sorted assignments)
                  = map t_index temp_df_sorted).
  { rewrite <- (fst_zip temp_df_sorted assignments) at 2 by lia.
    now rewrite map_map. }
  assert (Hvals : map snd (zip temp_df_sorted assignments) = assignments).
  { apply snd_zip. lia. }
  rewrite Hkeys, Hvals.
  set (d := dict_of_zip (map t_index temp_df_sorted) assignments).
  rewrite <- (dict_of_zip_lookup (map t_index temp_df_sorted) assignments).
  - fold d. rewrite <- (map_map t_index (fun k => d !! k)).
    apply Permutation_map, Permutation_map. now symmetry.
  - now rewrite (Permutation_map t_index Hperm).
  - rewrite length_map. lia.
Qed.

Local Abbreviation trial_frame := (trial_frame arctan2 degrees sort_values).

Lemma runs_total (pca_df : list pca_row) (K : Z) :
  1 <= K <= 6 ->
  let N := Z.of_nat (length pca_df) in
  length (runs (N / K) (N mod K) (Py.slice_to ABCDEF K) 0) = length pca_df.
Proof.
  intros HK N. apply Nat2Z.inj. rewrite runs_length, run_sizes_sum.
  - rewrite slice_to_ABCDEF_length by lia.
    pose proof (Z.mod_pos_bound N K ltac:(lia)).
    pose proof (Z.div_mod N K ltac:(lia)). fold N. lia.
  - apply Z.div_pos; lia.
  - lia.
Qed.

Lemma trial_frame_clusters (pca_df : list pca_row) (K o : Z) :
  1 <= K <= 6 ->
  let N := Z.of_nat (length pca_df) in
  map Cluster (trial_frame pca_df K o)
  ≡ₚ map Some (runs (N / K) (N mod K) (Py.slice_to ABCDEF K) 0).
Proof.
  intros HK N. unfold trial_frame. apply map_back_clusters.
  - rewrite with_angle_index by apply angles_degrees_length. apply NoDup_seq.
  - apply sort_values_perm.
  - rewrite (Permutation_length (sort_values_perm _)).
    rewrite with_angle_length by apply angles_degrees_length.
    now apply runs_total.
Qed.

Lemma group_size_perm (x : ascii) (c1 c2 : list (option ascii)) :
  c1 ≡ₚ c2 -> group_size x c1 = group_size x c2.
Proof. intros Hperm. unfold group_size. now rewrite Hperm. Qed.

(** With one to six groups and at least one participant, the pass at any
    offset builds [trial_frame] and its balance check passes. *)
Lemma trial_at_balanced (pca_df : list pca_row) (K o : Z) :
  1 <= K <= 6 -> pca_df <> [] ->
  trial_at arctan2 degrees sort_values pca_df K o = Return (Some (trial_frame pca_df K o)).
Proof.
  intros HK Hne. unfold trial_at, trial.
  set (N := Z.of_nat (length pca_df)).
  set (labels := Py.slice_to ABCDEF K).
  assert (Hlab : length labels = Z.to_nat K) by (apply slice_to_ABCDEF_length; lia).
  rewrite range_unfold.
  rewrite (label_runs_runs (N / K) (N mod K) labels (Z.to_nat K) 0 []); [|simpl; lia].
  rewrite drop_0, (take_ge labels) by lia. change (Z.of_nat 0) with 0. cbn [app].
  rewrite bind_Return.
  pose proof (runs_total pca_df K HK) as Htotal. cbv zeta in Htotal.
  fold N labels in Htotal.
  rewrite (take_ge (runs _ _ _ _)) by lia.
  unfold set_cluster.
  rewrite Htotal, (Permutation_length (sort_values_perm _)).
  rewrite with_angle_length by apply angles_degrees_length.
  rewrite Nat.eqb_refl, bind_Return.
  change (map_back _ _) with (trial_frame pca_df K o).
  pose proof (trial_frame_clusters pca_df K o HK) as Hperm. cbv zeta in Hperm.
  fold N labels in Hperm.
  rewrite balanced_intro; [reflexivity| |].
  - destruct (runs (N / K) (N mod K) labels 0) as [|x rest] eqn:Hruns.
    { destruct pca_df; [congruence|discriminate Htotal]. }
    exists x. rewrite (group_size_perm _ _ _ Hperm).
    unfold group_size. simpl. rewrite filter_cons_True by reflexivity. discriminate.
  - intros x. rewrite (group_size_perm _ _ _ Hperm).
    apply group_size_runs_bounds; [apply slice_to_ABCDEF_NoDup|].
    apply Z.div_pos; lia.
Qed.

(** Hence the search stops at its first offset. *)
Lemma find_optimal_clustering_first (pca_df : list pca_row) (K : Z) :
  1 <= K <= 6 -> pca_df <> [] ->
  find_optimal_clustering arctan2 degrees sort_values pca_df K
  = Return (Some (trial_frame pca_df K 0, 0)).
Proof.
  intros HK Hne. unfold find_optimal_clustering, Py.floordiv, Py.imod.
  destruct (Z.eqb_spec K 0) as [HK0|_]; [lia|].
  rewrite !bind_Return, range3_0_360. cbn [search].
  pose proof (trial_at_balanced pca_df K 0 HK Hne) as Htrial.
  unfold trial_at in Htrial. cbv zeta in Htrial. now rewrite Htrial.
Qed.

End Balance.

(** ** The reference instance *)

Lemma insert_row_perm (r : temp_row) (rows : list temp_row) :
  Reference.insert_row r rows ≡ₚ r :: rows.
Proof.
  induction rows as [|h t IH]; simpl; [reflexivity|].
  destruct (Qle_bool _ _); [reflexivity|].
  rewrite IH. apply perm_swap.
Qed.

Lemma reference_sort_values_perm (rows : list temp_row) :
  Reference.sort_values rows ≡ₚ rows.
Proof.
  unfold Reference.sort_values. induction rows as [|r t IH]; simpl; [reflexivity|].
  now rewrite insert_row_perm, IH.
Qed.

Lemma insert_row_behind_perm (r : temp_row) (rows : list temp_row) :
  Reference.insert_row_behind r rows ≡ₚ r :: rows.
Proof.
  induction rows as [|h t IH]; simpl; [reflexivity|].
  destruct (Qle_bool _ _); [|reflexivity].
  rewrite IH. apply perm_swap.
Qed.

Lemma insert_row_ascending (r : temp_row) (rows : list temp_row) :
  ascending rows -> ascending (Reference.insert_row r rows).
Proof.
  unfold ascending. intros Hsorted. induction Hsorted as [|h t Ht IH Hh]; simpl.
  - repeat constructor.
  - destruct (Qle_bool (t_Angle r) (t_Angle h)) eqn:Hle.
    + apply Qle_bool_iff in Hle. constructor; [now constructor|].
      constructor; [exact Hle|].
      eapply Forall_impl; [exact Hh|]. intros y Hy. simpl in Hy. lra.
    + assert (Hhr : (t_Angle h <= t_Angle r)%Q).
      { apply Qlt_le_weak, Qnot_le_lt. intros Hc. apply Qle_bool_iff in Hc. congruence. }
      constructor; [exact IH|]. rewrite insert_row_perm. now constructor.
Qed.

Lemma insert_row_behind_ascending (r : temp_row) (rows : list temp_row) :
  ascending rows -> ascending (Reference.insert_row_behind r rows).
Proof.
  unfold ascending. intros Hsorted. induction Hsorted as [|h t Ht IH Hh]; simpl.
  - repeat constructor.
  - destruct (Qle_bool (t_Angle h) (t_Angle r)) eqn:Hle.
    + apply Qle_bool_iff in Hle.
      constructor; [exact IH|]. rewrite insert_row_behind_perm. now constructor.
    + assert (Hrh : (t_Angle r <= t_Angle h)%Q).
      { apply Qlt_le_weak, Qnot_le_lt. intros Hc. apply Qle_bool_iff in Hc. congruence. }
      constructor; [now constructor|].
      constructor; [exact Hrh|].
      eapply Forall_impl; [exact Hh|]. intros y Hy. simpl in Hy. lra.
Qed.

(** What is known of [sort_values] from its call (the rows come back
    reordered, in ascending [Angle] order) leaves the order of rows with equal
    angles open: both reference sorts meet it, and they place the two rows of
    [tied_rows] at angle 0 in opposite orders. *)
Lemma sort_values_ties_open :
  (forall rows, Reference.sort_values rows ≡ₚ rows /\ ascending (Reference.sort_values rows))
  /\ (forall rows, Reference.sort_values_behind rows ≡ₚ rows
                  /\ ascending (Reference.sort_values_behind rows))
  /\ map t_index (Reference.sort_values tied_rows) = [0; 2; 1]%nat
  /\ map t_index (Reference.sort_values_behind tied_rows) = [2; 0; 1]%nat.
Proof.
  split; [|split; [|split; vm_compute; reflexivity]].
  - intros rows. split; [apply reference_sort_values_perm|].
    unfold Reference.sort_values. induction rows as [|r t IH]; simpl; [constructor|].
    now apply insert_row_ascending.
  - intros rows. unfold Reference.sort_values_behind. split.
    + induction rows as [|r t IH]; simpl; [reflexivity|].
      now rewrite insert_row_behind_perm, IH.
    + induction rows as [|r t IH]; simpl; [constructor|].
      now apply insert_row_behind_ascending.
Qed.

(** ** Claims on the partitioner *)

Section PartitionerClaims.

Variable arctan2 : Q -> Q -> Q.
Variable degrees : Q -> Q.
Variable sort_values : list temp_row -> list temp_row.
Hypothesis sort_values_perm : forall rows, sort_values rows ≡ₚ rows.

Local Abbreviation partition := (find_optimal_clustering arctan2 degrees sort_values).
Local Abbreviation frame := (trial_frame arctan2 degrees sort_values).

Lemma trial_frame_length (pca_df : list pca_row) (K o : Z) :
  length (frame pca_df K o) = length pca_df.
Proof.
  unfold trial_frame, map_back. rewrite length_map.
  apply with_angle_length, angles_degrees_length.
Qed.

Lemma trial_frame_group_sizes (pca_df : list pca_row) (K o : Z) :
  1 <= K <= 6 ->
  group_sizes (Py.slice_to ABCDEF K) (frame pca_df K o)
  = run_sizes (Z.of_nat (length pca_df) / K) (Z.of_nat (length pca_df) mod K)
              (Py.slice_to ABCDEF K) 0.
Proof.
  intros HK. rewrite <- group_size_runs by apply slice_to_ABCDEF_NoDup.
  unfold group_sizes. apply map_ext. intros x.
  apply group_size_perm. now apply trial_frame_clusters.
Qed.

Lemma trial_frame_all_labelled (pca_df : list pca_row) (K o : Z) :
  1 <= K <= 6 -> all_labelled (Py.slice_to ABCDEF K) (frame pca_df K o).
Proof.
  intros HK. pose proof (trial_frame_clusters arctan2 degrees sort_values sort_values_perm pca_df K o HK) as Hperm.
  cbv zeta in Hperm. unfold all_labelled. apply Forall_forall. intros r Hr.
  assert (Hc : Cluster r ∈ map Cluster (frame pca_df K o)).
  { change (map Cluster ?l) with (Cluster <$> l). now apply list_elem_of_fmap_2. }
  rewrite Hperm in Hc. change (map Some ?l) with (Some <$> l) in Hc.
  apply list_elem_of_fmap in Hc as (x & Hx & Hin).
  exists x. split; [exact Hx|]. eapply runs_labels, Hin.
Qed.

Lemma trial_frame_invariant (pca_df : list pca_row) (K o : Z) :
  1 <= K <= 6 ->
  balance_invariant (Z.of_nat (length pca_df)) K (frame pca_df K o).
Proof.
  intros HK. unfold balance_invariant. cbv zeta.
  rewrite trial_frame_group_sizes by exact HK.
  set (N := Z.of_nat (length pca_df)).
  assert (Hper : 0 <= N / K) by (apply Z.div_pos; lia).
  pose proof (Z.mod_pos_bound N K ltac:(lia)) as Hmod.
  repeat split.
  - now apply run_sizes_bounds.
  - rewrite run_sizes_sum, slice_to_ABCDEF_length by lia.
    pose proof (Z.div_mod N K ltac:(lia)). lia.
  - etransitivity; [now apply run_sizes_larger|]. lia.
Qed.

(** C1, as amended: with N participants and K groups, 1 <= K <= N and
    K <= 6 (the six labels A..F), the partitioner returns an assignment; it
    labels every participant with one of the first K letters, every group
    has floor(N/K) or floor(N/K)+1 members, the sizes sum to N, and at most
    N mod K groups have the larger size. *)
Theorem partition_balanced (pca_df : list pca_row) (K : Z) :
  1 <= K <= Z.of_nat (length pca_df) -> K <= 6 ->
  exists df o,
    partition pca_df K = Return (Some (df, o))
    /\ length df = length pca_df
    /\ all_labelled (Py.slice_to ABCDEF K) df
    /\ balance_invariant (Z.of_nat (length pca_df)) K df.
Proof.
  intros HKN HK6.
  assert (Hne : pca_df <> []) by (intros ->; simpl in HKN; lia).
  exists (frame pca_df K 0), 0. split; [|split; [|split]].
  - apply find_optimal_clustering_first; [exact sort_values_perm|lia|exact Hne].
  - apply trial_frame_length.
  - apply trial_frame_all_labelled. lia.
  - apply trial_frame_invariant. lia.
Qed.

(** C6, as amended: for 1 <= K <= N and K <= 6 the search succeeds on its
    first candidate and returns offset 0; the pass at every offset passes
    the balance check, whatever the rotation of the angular sort. *)
Theorem search_succeeds_at_offset_zero (pca_df : list pca_row) (K : Z) :
  1 <= K <= Z.of_nat (length pca_df) -> K <= 6 ->
  (exists df, partition pca_df K = Return (Some (df, 0)))
  /\ forall o, passes (trial_at arctan2 degrees sort_values pca_df K o).
Proof.
  intros HKN HK6.
  assert (Hne : pca_df <> []) by (intros ->; simpl in HKN; lia).
  split.
  - exists (frame pca_df K 0).
    apply find_optimal_clustering_first; [exact sort_values_perm|lia|exact Hne].
  - intros o. exists (frame pca_df K o).
    apply trial_at_balanced; [exact sort_values_perm|lia|exact Hne].
Qed.

(** The pass at any offset raises [IndexError] when more than six groups are
    asked for. *)
Lemma trial_IndexError (pca_df : list pca_row) (K per extra o : Z) :
  6 < K ->
  trial arctan2 degrees sort_values pca_df K per extra (Py.slice_to ABCDEF K) o
  = Raise IndexError.
Proof.
  intros HK. unfold trial.
  rewrite range_unfold, (label_runs_IndexError per extra _ (Z.to_nat K) 0 []);
    [reflexivity|].
  unfold Py.slice_to. destruct (Z.ltb_spec K 0); [lia|].
  rewrite length_take. change (length ABCDEF) with 6%nat. lia.
Qed.

Lemma find_optimal_clustering_IndexError (pca_df : list pca_row) (K : Z) :
  6 < K -> partition pca_df K = Raise IndexError.
Proof.
  intros HK. unfold find_optimal_clustering, Py.floordiv, Py.imod.
  destruct (Z.eqb_spec K 0) as [HK0|_]; [lia|].
  rewrite !bind_Return, range3_0_360.
  apply search_raise, trial_IndexError, HK.
Qed.

(** C10: the label alphabet is the six letters A..F; for K > 6 the label
    list has six entries, the loop that builds the runs raises an
    out-of-range indexing error, and the partitioner ends with that error:
    it returns neither NOT_FOUND nor an assignment (for every N, N >= 1
    included). *)
Theorem partition_IndexError_beyond_six_labels (pca_df : list pca_row) (K : Z) :
  6 < K ->
  length (Py.slice_to ABCDEF K) = 6%nat
  /\ label_runs (Py.slice_to ABCDEF K)
                (Z.of_nat (length pca_df) / K) (Z.of_nat (length pca_df) mod K)
                (Py.range K) [] = Raise IndexError
  /\ partition pca_df K = Raise IndexError.
Proof.
  intros HK.
  assert (Hlen : length (Py.slice_to ABCDEF K) = 6%nat).
  { unfold Py.slice_to. destruct (Z.ltb_spec K 0); [lia|].
    rewrite length_take. change (length ABCDEF) with 6%nat. lia. }
  split; [exact Hlen|]. split.
  - rewrite range_unfold. apply label_runs_IndexError. lia.
  - apply find_optimal_clustering_IndexError, HK.
Qed.

(** With no rows, a pass whose label loop completes fails the balance check:
    there is no group, so both extremes of the sizes are NaN. *)
Lemma trial_empty_frame (K per extra o : Z) (labels assignments : list ascii) :
  label_runs labels per extra (Py.range K) [] = Return assignments ->
  trial arctan2 degrees sort_values [] K per extra labels o = Return None.
Proof.
  intros Hruns. unfold trial. rewrite Hruns, bind_Return.
  assert (Hsorted : sort_values (with_angle [] (angles_degrees arctan2 degrees [] o)) = []).
  { apply Permutation_nil. symmetry. apply sort_values_perm. }
  rewrite Hsorted. reflexivity.
Qed.

(** With rows and a negative group count, the label list is empty and the
    column assignment of line 145 raises. *)
Lemma trial_negative (pca_df : list pca_row) (K per extra o : Z) (labels : list ascii) :
  K < 0 -> pca_df <> [] ->
  trial arctan2 degrees sort_values pca_df K per extra labels o = Raise ValueError.
Proof.
  intros HK Hne. unfold trial, Py.range.
  replace (Z.to_nat K) with 0%nat by lia. cbn [seq map label_runs].
  rewrite bind_Return. unfold set_cluster.
  rewrite (Permutation_length (sort_values_perm _)).
  rewrite with_angle_length by apply angles_degrees_length.
  destruct pca_df; [congruence|]. now rewrite (take_nil (A:=ascii)).
Qed.

(** C2, as amended: with more groups than participants (K > N >= 1) the
    partitioner never reports NOT_FOUND. For K <= 6 it returns an assignment
    at offset 0 in which the first N labels have one participant each and
    the other K - N labels have none; for K > 6 it ends with [IndexError]. *)
Theorem partition_more_groups_than_participants (pca_df : list pca_row) (K : Z) :
  1 <= Z.of_nat (length pca_df) -> Z.of_nat (length pca_df) < K ->
  partition pca_df K <> Return None
  /\ (K <= 6 ->
      exists df,
        partition pca_df K = Return (Some (df, 0))
        /\ forall (j : nat) (x : ascii),
             Py.slice_to ABCDEF K !! j = Some x ->
             group_size x (map Cluster df)
             = if Z.of_nat j <? Z.of_nat (length pca_df) then 1%nat else 0%nat)
  /\ (6 < K -> partition pca_df K = Raise IndexError).
Proof.
  intros HN HK.
  assert (Hne : pca_df <> []) by (intros ->; simpl in HN; lia).
  assert (Hsmall : K <= 6 ->
            exists df,
              partition pca_df K = Return (Some (df, 0))
              /\ forall (j : nat) (x : ascii),
                   Py.slice_to ABCDEF K !! j = Some x ->
                   group_size x (map Cluster df)
                   = if Z.of_nat j <? Z.of_nat (length pca_df) then 1%nat else 0%nat).
  { intros HK6. exists (frame pca_df K 0). split.
    - apply find_optimal_clustering_first; [exact sort_values_perm|lia|exact Hne].
    - intros j x Hj.
      rewrite (group_size_perm x _ _
                 (trial_frame_clusters arctan2 degrees sort_values sort_values_perm
                                       pca_df K 0 ltac:(lia))).
      rewrite (group_size_runs_lookup _ _ _ 0 j x (slice_to_ABCDEF_NoDup K) Hj).
      unfold run_size. rewrite Z.div_small, Z.mod_small, Z.add_0_l by lia.
      now destruct (Z.of_nat j <? Z.of_nat (length pca_df)). }
  assert (Hlarge : 6 < K -> partition pca_df K = Raise IndexError).
  { intros HK6. now apply find_optimal_clustering_IndexError. }
  split; [|split; assumption].
  destruct (Z_le_gt_dec K 6) as [HK6|HK6].
  - destruct (Hsmall HK6) as (df & -> & _). discriminate.
  - rewrite Hlarge by lia. discriminate.
Qed.

(** C3, as amended: for K <= 0 or N = 0 the partitioner never returns an
    assignment. K = 0 raises [ZeroDivisionError] before the search begins;
    K < 0 with N >= 1 raises [ValueError] in the first pass; N = 0 with
    K > 6 raises [IndexError] in the first pass; N = 0 with K <= 6, K <> 0
    reports NOT_FOUND after the pass at every offset has failed the balance
    check. *)
Theorem partition_degenerate_input (pca_df : list pca_row) (K : Z) :
  K <= 0 \/ pca_df = [] ->
  (K = 0 -> partition pca_df K = Raise ZeroDivisionError)
  /\ (K < 0 -> pca_df <> [] -> partition pca_df K = Raise ValueError)
  /\ (pca_df = [] -> 6 < K -> partition pca_df K = Raise IndexError)
  /\ (pca_df = [] -> K <> 0 -> K <= 6 ->
      partition pca_df K = Return None
      /\ forall o, trial_at arctan2 degrees sort_values pca_df K o = Return None)
  /\ forall df o, partition pca_df K <> Return (Some (df, o)).
Proof.
  intros Hdeg.
  assert (H0 : K = 0 -> partition pca_df K = Raise ZeroDivisionError).
  { intros ->. reflexivity. }
  assert (Hneg : K < 0 -> pca_df <> [] -> partition pca_df K = Raise ValueError).
  { intros HK Hne. unfold find_optimal_clustering, Py.floordiv, Py.imod.
    destruct (Z.eqb_spec K 0) as [HK0|_]; [lia|].
    rewrite !bind_Return, range3_0_360.
    now apply search_raise, trial_negative. }
  assert (Hbig : pca_df = [] -> 6 < K -> partition pca_df K = Raise IndexError).
  { intros _ HK. now apply find_optimal_clustering_IndexError. }
  assert (Hruns : K <> 0 -> K <= 6 -> forall per extra,
            exists assignments,
              label_runs (Py.slice_to ABCDEF K) per extra (Py.range K) []
              = Return assignments).
  { intros HK0 HK6 per extra. rewrite range_unfold.
    destruct (Z_lt_ge_dec K 0) as [HKneg|HKpos].
    - replace (Z.to_nat K) with 0%nat by lia. now exists [].
    - eexists. apply label_runs_runs.
      rewrite slice_to_ABCDEF_length; lia. }
  assert (Hempty : pca_df = [] -> K <> 0 -> K <= 6 ->
            partition pca_df K = Return None
            /\ forall o, trial_at arctan2 degrees sort_values pca_df K o = Return None).
  { intros -> HK0 HK6.
    assert (Htrial : forall per extra o,
               trial arctan2 degrees sort_values [] K per extra (Py.slice_to ABCDEF K) o
               = Return None).
    { intros per extra o. destruct (Hruns HK0 HK6 per extra) as [assignments Ha].
      eapply trial_empty_frame, Ha. }
    split.
    - unfold find_optimal_clustering, Py.floordiv, Py.imod.
      destruct (Z.eqb_spec K 0) as [HK0'|_]; [lia|].
      rewrite !bind_Return. apply search_exhausted, Htrial.
    - intros o. apply Htrial. }
  repeat split; try assumption; try (now apply Hempty).
  intros df o.
  destruct (Z.eq_dec K 0) as [HK0|HK0]; [rewrite H0 by exact HK0; discriminate|].
  destruct pca_df as [|p rest] eqn:Hdf.
  - destruct (Z_le_gt_dec K 6) as [HK6|HK6].
    + destruct (Hempty eq_refl HK0 HK6) as [-> _]. discriminate.
    + rewrite Hbig by (reflexivity || lia). discriminate.
  - destruct Hdeg as [HK|Hnil]; [|discriminate].
    rewrite Hneg by (lia || discriminate). discriminate.
Qed.

End PartitionerClaims.

(** ** The partitioner on the example inputs *)

Lemma partition_balanced_witness :
  (1 <= 3 <= Z.of_nat (length seven_points) /\ 3 <= 6)
  /\ exists df o,
       Reference.partition seven_points 3 = Return (Some (df, o))
       /\ length df = length seven_points
       /\ all_labelled (Py.slice_to ABCDEF 3) df
       /\ balance_invariant (Z.of_nat (length seven_points)) 3 df.
Proof.
  split; [simpl; lia|].
  apply (partition_balanced Reference.arctan2 Reference.degrees Reference.sort_values
                            reference_sort_values_perm seven_points 3); simpl; lia.
Defined.

(** Seven participants and seven groups: 1 <= K <= N, and the call ends with
    [IndexError] instead of an assignment. *)
Lemma partition_balanced_counterexample :
  1 <= 7 <= Z.of_nat (length seven_points)
  /\ Reference.partition seven_points 7 = Raise IndexError.
Proof. split; [simpl; lia|]. vm_compute. reflexivity. Qed.

Lemma search_succeeds_at_offset_zero_witness :
  (1 <= 4 <= Z.of_nat (length eight_points) /\ 4 <= 6)
  /\ (exists df, Reference.partition eight_points 4 = Return (Some (df, 0)))
  /\ forall o, passes (trial_at Reference.arctan2 Reference.degrees Reference.sort_values
                                eight_points 4 o).
Proof.
  split; [simpl; lia|].
  apply (search_succeeds_at_offset_zero
           Reference.arctan2 Reference.degrees Reference.sort_values
           reference_sort_values_perm eight_points 4); simpl; lia.
Defined.

(** Eight participants and eight groups: 1 <= K <= N, the first pass raises
    instead of passing the balance check, and no offset is returned. *)
Lemma search_succeeds_at_offset_zero_counterexample :
  1 <= 8 <= Z.of_nat (length eight_points)
  /\ trial_at Reference.arctan2 Reference.degrees Reference.sort_values eight_points 8 0
     = Raise IndexError
  /\ Reference.partition eight_points 8 = Raise IndexError.
Proof. split; [simpl; lia|]. split; vm_compute; reflexivity. Qed.

Lemma partition_IndexError_beyond_six_labels_witness :
  6 < 7
  /\ length (Py.slice_to ABCDEF 7) = 6%nat
  /\ label_runs (Py.slice_to ABCDEF 7)
                (Z.of_nat (length three_points) / 7) (Z.of_nat (length three_points) mod 7)
                (Py.range 7) [] = Raise IndexError
  /\ Reference.partition three_points 7 = Raise IndexError.
Proof.
  split; [lia|].
  apply (partition_IndexError_beyond_six_labels
           Reference.arctan2 Reference.degrees Reference.sort_values three_points 7); lia.
Defined.

Lemma partition_more_groups_than_participants_witness :
  (1 <= Z.of_nat (length three_points) /\ Z.of_nat (length three_points) < 5)
  /\ Reference.partition three_points 5 <> Return None
  /\ (5 <= 6 ->
      exists df,
        Reference.partition three_points 5 = Return (Some (df, 0))
        /\ forall (j : nat) (x : ascii),
             Py.slice_to ABCDEF 5 !! j = Some x ->
             group_size x (map Cluster df)
             = if Z.of_nat j <? Z.of_nat (length three_points) then 1%nat else 0%nat)
  /\ (6 < 5 -> Reference.partition three_points 5 = Raise IndexError).
Proof.
  split; [simpl; lia|].
  apply (partition_more_groups_than_participants
           Reference.arctan2 Reference.degrees Reference.sort_values
           reference_sort_values_perm three_points 5); simpl; lia.
Defined.

Example three_points_angles :
  map Qred (angles_degrees Reference.arctan2 Reference.degrees three_points 0)
  = [315%Q; 225%Q; 90%Q].
Proof. vm_compute. reflexivity. Qed.

(** Three participants and six groups: the call returns an assignment at
    offset 0 that uses the labels A, B and C once each (the angles are 315,
    225 and 90 degrees) and leaves the groups D, E and F empty; it does not
    report NOT_FOUND. *)
Lemma partition_more_groups_than_participants_counterexample :
  Z.of_nat (length three_points) < 6
  /\ outcome (Reference.partition three_points 6)
     = Return (Some ([Some "C"; Some "B"; Some "A"]%char, 0)).
Proof. split; [simpl; lia|]. vm_compute. reflexivity. Qed.

Lemma partition_degenerate_input_witness :
  (3 <= 0 \/ @nil pca_row = [])
  /\ (3 = 0 -> Reference.partition [] 3 = Raise ZeroDivisionError)
  /\ (3 < 0 -> @nil pca_row <> [] -> Reference.partition [] 3 = Raise ValueError)
  /\ (@nil pca_row = [] -> 6 < 3 -> Reference.partition [] 3 = Raise IndexError)
  /\ (@nil pca_row = [] -> 3 <> 0 -> 3 <= 6 ->
      Reference.partition [] 3 = Return None
      /\ forall o, trial_at Reference.arctan2 Reference.degrees Reference.sort_values [] 3 o
                   = Return None)
  /\ forall df o, Reference.partition [] 3 <> Return (Some (df, o)).
Proof.
  split; [right; reflexivity|].
  apply (partition_degenerate_input
           Reference.arctan2 Reference.degrees Reference.sort_values
           reference_sort_values_perm [] 3).
  right. reflexivity.
Defined.

(** K = 0 with three participants: the call ends with [ZeroDivisionError], an
    exception and not a reported failure. N = 0 with K = 3: the input is not
    rejected before the search, the pass at offset 0 runs and fails the
    balance check. *)
Lemma partition_degenerate_input_counterexample :
  Reference.partition three_points 0 = Raise ZeroDivisionError
  /\ Reference.partition three_points (-1) = Raise ValueError
  /\ trial_at Reference.arctan2 Reference.degrees Reference.sort_values [] 3 0 = Return None.
Proof. repeat split; vm_compute; reflexivity. Qed.

(** *** Which offset is returned *)

Lemma range3_split_at (o : Z) :
  0 <= o < 360 ->
  exists pre post,
    Py.range3 0 360 = pre ++ o :: post /\ forall o', o' ∈ pre -> 0 <= o' < o.
Proof.
  intros Ho. unfold Py.range3. change (Z.to_nat (360 - 0)) with 360%nat.
  set (l := map (fun i => 0 + Z.of_nat i) (seq 0 360)).
  assert (Hlook : l !! Z.to_nat o = Some o).
  { unfold l. change (map ?f ?x) with (f <$> x).
    rewrite list_lookup_fmap, lookup_seq_lt by lia. simpl. f_equal. lia. }
  exists (take (Z.to_nat o) l), (drop (S (Z.to_nat o)) l). split.
  - symmetry. now apply take_drop_middle.
  - intros o' Hin. apply elem_of_take in Hin as (i & Hi & Hlt).
    unfold l in Hi. change (map ?f ?x) with (f <$> x) in Hi.
    rewrite list_lookup_fmap, lookup_seq_lt in Hi by lia. simpl in Hi.
    inversion Hi. lia.
Qed.

Lemma range3_elem (o : Z) : o ∈ Py.range3 0 360 -> 0 <= o < 360.
Proof.
  unfold Py.range3. change (Z.to_nat (360 - 0)) with 360%nat.
  change (map ?f ?x) with (f <$> x). intros Hin.
  apply list_elem_of_fmap in Hin as (i & -> & Hi).
  apply elem_of_seq in Hi. lia.
Qed.

Section Search.

Variable arctan2 : Q -> Q -> Q.
Variable degrees : Q -> Q.
Variable sort_values : list temp_row -> list temp_row.

(** After passes that fail the check, the search returns at the first pass
    that succeeds. *)
Lemma search_app (pca_df : list pca_row) (K per extra : Z) (labels : list ascii)
      (pre post : list Z) (o : Z) (df : list out_row) :
  Forall (fun o' => trial arctan2 degrees sort_values pca_df K per extra labels o'
                    = Return None) pre ->
  trial arctan2 degrees sort_values pca_df K per extra labels o = Return (Some df) ->
  search arctan2 degrees sort_values pca_df K per extra labels (pre ++ o :: post)
  = Return (Some (df, o)).
Proof.
  intros Hpre Ho. induction Hpre as [|o' pre Ho' _ IH]; simpl.
  - now rewrite Ho.
  - now rewrite Ho'.
Qed.

(** The search sees the library only through the passes. *)
Lemma search_ext (arctan2' : Q -> Q -> Q) (degrees' : Q -> Q)
      (sort_values' : list temp_row -> list temp_row)
      (pca_df : list pca_row) (K per extra : Z) (labels : list ascii) (offsets : list Z) :
  (forall o, o ∈ offsets ->
             trial arctan2 degrees sort_values pca_df K per extra labels o
             = trial arctan2' degrees' sort_values' pca_df K per extra labels o) ->
  search arctan2 degrees sort_values pca_df K per extra labels offsets
  = search arctan2' degrees' sort_values' pca_df K per extra labels offsets.
Proof.
  induction offsets as [|o rest IH]; intros Hsame; simpl; [reflexivity|].
  rewrite <- (Hsame o) by left.
  destruct (trial arctan2 degrees sort_values pca_df K per extra labels o) as [[df|]|e];
    simpl; try reflexivity.
  apply IH. intros o' Ho'. apply Hsame. now right.
Qed.

End Search.

(** C4: a call has no source of variation but its input and what the library
    calls return on it: two runs on the same point list (same order) and the
    same K in which [arctan2]/[degrees] give the same angles and
    [sort_values] the same sorted frames give the same result, assignment and
    offset included. And a call returns the pair (df, o) exactly when o is
    the lowest offset in [0, 360) whose pass passes the balance check: the
    pass at o hands back df and the pass at every lower offset fails the
    check; the first success is returned, and no success is missed. *)
Theorem partition_deterministic_lowest_offset
        (arctan2 arctan2' : Q -> Q -> Q) (degrees degrees' : Q -> Q)
        (sort_values sort_values' : list temp_row -> list temp_row)
        (pca_df : list pca_row) (K : Z) :
  (forall o, 0 <= o < 360 ->
             angles_degrees arctan2 degrees pca_df o
             = angles_degrees arctan2' degrees' pca_df o) ->
  (forall o, 0 <= o < 360 ->
             sort_values (with_angle pca_df (angles_degrees arctan2 degrees pca_df o))
             = sort_values' (with_angle pca_df (angles_degrees arctan2 degrees pca_df o))) ->
  find_optimal_clustering arctan2 degrees sort_values pca_df K
  = find_optimal_clustering arctan2' degrees' sort_values' pca_df K
  /\ forall df o,
       find_optimal_clustering arctan2 degrees sort_values pca_df K = Return (Some (df, o))
       <-> (K <> 0
            /\ 0 <= o < 360
            /\ trial_at arctan2 degrees sort_values pca_df K o = Return (Some df)
            /\ forall o', 0 <= o' < o ->
                          trial_at arctan2 degrees sort_values pca_df K o' = Return None).
Proof.
  intros Hangles Hsorted. split.
  - unfold find_optimal_clustering.
    destruct (Py.floordiv _ K) as [per|e]; [|reflexivity]. rewrite !bind_Return.
    destruct (Py.imod _ K) as [extra|e]; [|reflexivity]. rewrite !bind_Return.
    apply search_ext. intros o Ho. apply range3_elem in Ho.
    unfold trial. now rewrite <- (Hangles o Ho), (Hsorted o Ho).
  - intros df o. unfold trial_at. cbv zeta. split.
    + intros Hres. unfold find_optimal_clustering, Py.floordiv, Py.imod in Hres.
      destruct (Z.eqb_spec K 0) as [HK0|HK0]; [discriminate Hres|].
      rewrite !bind_Return in Hres.
      apply search_first in Hres as (pre & post & Hsplit & Ho & Hpre).
      apply range3_split in Hsplit as [Hrange Hlow].
      split; [exact HK0|]. split; [exact Hrange|]. split; [exact Ho|].
      intros o' Ho'. rewrite Forall_forall in Hpre. apply Hpre, Hlow, Ho'.
    + intros (HK0 & Hrange & Ho & Hlow).
      unfold find_optimal_clustering, Py.floordiv, Py.imod.
      destruct (Z.eqb_spec K 0) as [HK0'|_]; [contradiction|].
      rewrite !bind_Return.
      destruct (range3_split_at o Hrange) as (pre & post & -> & Hpre).
      apply search_app; [|exact Ho].
      apply Forall_forall. intros o' Ho'. apply Hlow, Hpre, Ho'.
Qed.

(** The two reference sorts differ on frames with equal angles, but agree on
    the frame of [three_points] at every offset. *)
Lemma reference_sorts_agree_three_points (o : Z) :
  0 <= o < 360 ->
  Reference.sort_values
    (with_angle three_points (angles_degrees Reference.arctan2 Reference.degrees three_points o))
  = Reference.sort_values_behind
      (with_angle three_points
                  (angles_degrees Reference.arctan2 Reference.degrees three_points o)).
Proof.
  intros Ho.
  assert (Hall : Forall (fun o =>
                   Reference.sort_values
                     (with_angle three_points
                                 (angles_degrees Reference.arctan2 Reference.degrees
                                                 three_points o))
                   = Reference.sort_values_behind
                       (with_angle three_points
                                   (angles_degrees Reference.arctan2 Reference.degrees
                                                   three_points o)))
                 (Py.range3 0 360)).
  { apply (bool_decide_unpack _). vm_compute. exact I. }
  rewrite Forall_forall in Hall. apply Hall.
  destruct (range3_split_at o Ho) as (pre & post & -> & _).
  apply elem_of_app. right. left.
Qed.

(** The agreement of the sorted frames is needed: on [tied_points] the two
    reference sorts give different assignments. *)
Example reference_sorts_differ_tied_points :
  outcome (find_optimal_clustering Reference.arctan2 Reference.degrees
                                   Reference.sort_values tied_points 3)
  = Return (Some ([Some "A"; Some "C"; Some "B"]%char, 0))
  /\ outcome (find_optimal_clustering Reference.arctan2 Reference.degrees
                                      Reference.sort_values_behind tied_points 3)
     = Return (Some ([Some "B"; Some "C"; Some "A"]%char, 0)).
Proof. split; vm_compute; reflexivity. Qed.

(** Two runs with different sorts that agree on the frames of [three_points]
    return the same. With [Reference.sort_values_lossy] the pass at offset 0
    fails the check for [tied_points], whose first row is at angle 0 there,
    and the pass at offset 1 succeeds: offset 1 is returned. *)
Lemma partition_deterministic_lowest_offset_witness :
  (find_optimal_clustering Reference.arctan2 Reference.degrees Reference.sort_values
                           three_points 2
   = find_optimal_clustering Reference.arctan2 Reference.degrees Reference.sort_values_behind
                             three_points 2)
  /\ trial_at Reference.arctan2 Reference.degrees Reference.sort_values_lossy tied_points 1 0
     = Return None
  /\ exists df,
       trial_at Reference.arctan2 Reference.degrees Reference.sort_values_lossy tied_points 1 1
       = Return (Some df)
       /\ find_optimal_clustering Reference.arctan2 Reference.degrees
                                  Reference.sort_values_lossy tied_points 1
          = Return (Some (df, 1)).
Proof.
  split.
  { exact (proj1 (partition_deterministic_lowest_offset
                    Reference.arctan2 Reference.arctan2 Reference.degrees Reference.degrees
                    Reference.sort_values Reference.sort_values_behind three_points 2
                    (fun o _ => eq_refl) reference_sorts_agree_three_points)). }
  assert (H0 : trial_at Reference.arctan2 Reference.degrees Reference.sort_values_lossy
                        tied_points 1 0 = Return None) by (vm_compute; reflexivity).
  split; [exact H0|].
  destruct (trial_at Reference.arctan2 Reference.degrees Reference.sort_values_lossy
                     tied_points 1 1) as [[df|]|e] eqn:H1;
    try (vm_compute in H1; discriminate H1).
  exists df. split; [reflexivity|].
  apply (proj2 (partition_deterministic_lowest_offset
                  Reference.arctan2 Reference.arctan2 Reference.degrees Reference.degrees
                  Reference.sort_values_lossy Reference.sort_values_lossy tied_points 1
                  (fun o _ => eq_refl) (fun o _ => eq_refl))).
  split; [lia|]. split; [lia|]. split; [exact H1|].
  intros o' Ho'. replace o' with 0 by lia. exact H0.
Defined.

(** ** The boundary calculator *)

Lemma insert_by_perm {A : Type} (key : A -> option Q) (x : A) (l : list A) :
  Py.insert_by key x l ≡ₚ x :: l.
Proof.
  induction l as [|h t IH]; simpl; [reflexivity|].
  destruct (Py.flt _ _); [|reflexivity].
  rewrite IH. apply perm_swap.
Qed.

Lemma sorted_perm {A : Type} (key : A -> option Q) (l : list A) :
  Py.sorted key l ≡ₚ l.
Proof.
  unfold Py.sorted. induction l as [|x t IH]; simpl; [reflexivity|].
  now rewrite insert_by_perm, IH.
Qed.

Lemma unique_elem (xs : list ascii) (x : ascii) : x ∈ unique xs <-> x ∈ xs.
Proof.
  induction xs as [|y t IH]; simpl; [reflexivity|].
  rewrite !elem_of_cons, list_elem_of_filter, IH.
  destruct (decide (x = y)); tauto.
Qed.

Lemma unique_NoDup (xs : list ascii) : NoDup (unique xs).
Proof.
  induction xs as [|y t IH]; simpl; constructor.
  - rewrite list_elem_of_filter. tauto.
  - now apply NoDup_filter.
Qed.

Lemma series_min_is_Some (xs : list Q) : xs <> [] -> is_Some (series_min xs).
Proof. destruct xs; [congruence|]. simpl. eauto. Qed.

Lemma series_max_is_Some (xs : list Q) : xs <> [] -> is_Some (series_max xs).
Proof. destruct xs; [congruence|]. simpl. eauto. Qed.

(** A label that occurs in the frame selects at least one row. *)
Lemma angles_of_occurring (df : list vis_row) (c : ascii) :
  c ∈ map v_Cluster df -> angles_of df c <> [].
Proof.
  change (map v_Cluster df) with (v_Cluster <$> df).
  intros Hc. apply list_elem_of_fmap in Hc as (r & -> & Hr).
  unfold angles_of. intros Hnil. apply map_eq_nil in Hnil.
  assert (Hin : r ∈ filter (fun r' => v_Cluster r' = v_Cluster r) df).
  { apply list_elem_of_filter. now split. }
  rewrite Hnil in Hin. now apply elem_of_nil in Hin.
Qed.

(** The ordered labels are the labels that occur, each once. *)
Lemma ordered_labels_perm (df : list vis_row) :
  ordered_labels df ≡ₚ unique (map v_Cluster df).
Proof. apply sorted_perm. Qed.

Lemma ordered_labels_occur (df : list vis_row) (c : ascii) :
  c ∈ ordered_labels df <-> c ∈ map v_Cluster df.
Proof. now rewrite ordered_labels_perm, unique_elem. Qed.

(** Lines 184-191 compute the midpoint rule of the specification, NaN cases
    included. *)
Lemma midpoint_code (current next : list Q) :
  (let max_angle_current := series_max current in
   let min_angle_next := series_min next in
   let min_angle_next :=
     if Py.flt min_angle_next max_angle_current
     then Py.fadd min_angle_next (Some 360%Q)
     else min_angle_next in
   Py.frem (Py.fdiv (Py.fadd max_angle_current min_angle_next) (Some 2%Q)) (Some 360%Q))
  = Spec.midpoint current next.
Proof.
  unfold Spec.midpoint. cbv zeta.
  destruct (series_max current) as [M|], (series_min next) as [m|]; simpl; try reflexivity.
  now destruct (Qle_bool M m).
Qed.

Lemma boundary_angle_pair (df : list vis_row) (labels : list ascii) (i : nat) (c n : ascii) :
  labels !! i = Some c -> rotate 1 labels !! i = Some n ->
  boundary_angle df labels (Z.of_nat i)
  = Return (Spec.midpoint (angles_of df c) (angles_of df n)).
Proof.
  intros Hc Hn. pose proof (lookup_lt_Some _ _ _ Hc) as Hi.
  rewrite lookup_rotate_r in Hn by exact Hi. unfold rotate_nat_add in Hn.
  unfold boundary_angle. rewrite (getitem_lookup _ _ _ Hc), bind_Return.
  unfold Py.imod. destruct (Z.eqb_spec (Z.of_nat (length labels)) 0) as [H0|_]; [lia|].
  rewrite bind_Return.
  replace ((Z.of_nat i + 1) mod Z.of_nat (length labels))
    with (Z.of_nat (Z.to_nat ((Z.of_nat 1 + Z.of_nat i) mod Z.of_nat (length labels)))).
  - rewrite (getitem_lookup _ _ _ Hn), bind_Return. f_equal. apply midpoint_code.
  - rewrite Z2Nat.id; [f_equal; lia|]. apply Z.mod_pos_bound. lia.
Qed.

Lemma boundary_loop_pairs (df : list vis_row) (labels : list ascii) (n a : nat)
      (acc : list (option Q)) :
  (a + n <= length labels)%nat ->
  boundary_loop df labels (map Z.of_nat (seq a n)) acc
  = Return (acc ++ map (fun cn => Py.fadd (Py.fneg (Spec.midpoint (angles_of df cn.1)
                                                                 (angles_of df cn.2)))
                                         (Some 30%Q))
                       (take n (drop a (Spec.cyclic_pairs labels)))).
Proof.
  revert a acc. induction n as [|n IH]; intros a acc Hlen.
  - simpl. now rewrite app_nil_r.
  - destruct (lookup_lt_is_Some_2 labels a) as [c Hc]; [lia|].
    destruct (lookup_lt_is_Some_2 (rotate 1 labels) a) as [nx Hn];
      [rewrite length_rotate; lia|].
    assert (Hpair : Spec.cyclic_pairs labels !! a = Some (c, nx)).
    { unfold Spec.cyclic_pairs. change (combine ?x ?y) with (zip x y).
      now apply lookup_zip_Some. }
    cbn [seq map boundary_loop].
    rewrite (boundary_angle_pair df labels a c nx Hc Hn), bind_Return.
    rewrite IH by lia. rewrite (drop_S _ _ _ Hpair). cbn [take map fst snd].
    now rewrite <- app_assoc.
Qed.

Lemma cyclic_pairs_length {A : Type} (l : list A) :
  length (Spec.cyclic_pairs l) = length l.
Proof.
  unfold Spec.cyclic_pairs. rewrite length_combine, length_rotate. lia.
Qed.

(** The loop of lines 179-192 yields the mirrored midpoints of the cyclic
    pairs, without raising. *)
Lemma boundary_angles_eq (df : list vis_row) :
  boundary_angles df
  = Return (map (fun b => Py.fadd (Py.fneg b) (Some 30%Q)) (Spec.boundaries df)).
Proof.
  unfold boundary_angles. cbv zeta. rewrite range_unfold, Nat2Z.id.
  rewrite boundary_loop_pairs by lia.
  rewrite drop_0, take_ge by (rewrite cyclic_pairs_length; lia).
  unfold Spec.boundaries. now rewrite map_map.
Qed.

(** *** The order of the groups *)




Section SortedByKey.

Context {A : Type} (key : A -> option Q).



End SortedByKey.


(** *** The range of the boundaries *)

Lemma fmod_360_range (x : Q) : (0 <= Py.fmod x 360 < 360)%Q.
Proof.
  unfold Py.fmod.
  pose proof (Qfloor_le (x / 360)) as Hlo.
  pose proof (Qlt_floor (x / 360)) as Hhi.
  rewrite inject_Z_plus in Hhi. change (inject_Z 1) with 1%Q in Hhi.
  assert (Hx : (x == 360 * (x / 360))%Q) by field.
  set (f := inject_Z (Qfloor (x / 360))) in *.
  set (y := (x / 360)%Q) in *.
  split; lra.
Qed.

(** Between two groups that have members the midpoint is a number in
    [0, 360). *)
Lemma midpoint_range (current next : list Q) :
  current <> [] -> next <> [] ->
  within 0 360 (Spec.midpoint current next).
Proof.
  intros Hc Hn. unfold Spec.midpoint.
  destruct (series_max_is_Some current Hc) as [M ->].
  destruct (series_min_is_Some next Hn) as [m ->]. simpl.
  eexists. split; [reflexivity|]. apply fmod_360_range.
Qed.

Lemma mirrored_range (b : option Q) :
  within 0 360 b ->
  exists q, mirrored b = Some q /\ (- (330) < q <= 30)%Q.
Proof.
  intros (q & -> & Hq). exists (- q + 30)%Q. split; [reflexivity|]. lra.
Qed.

Lemma boundaries_range (df : list vis_row) :
  Forall (within 0 360) (Spec.boundaries df).
Proof.
  unfold Spec.boundaries, Spec.cyclic_pairs. apply Forall_forall. intros b Hb.
  change (map ?f ?l) with (f <$> l) in Hb.
  apply list_elem_of_fmap in Hb as ([c n] & -> & Hpair). simpl.
  change (combine ?a ?b) with (zip a b) in Hpair.
  pose proof (elem_of_zip_l _ _ _ _ Hpair) as Hc.
  pose proof (elem_of_zip_r _ _ _ _ Hpair) as Hn.
  rewrite elem_of_rotate in Hn.
  apply midpoint_range; apply angles_of_occurring; now apply ordered_labels_occur.
Qed.

Lemma boundaries_length (df : list vis_row) :
  length (Spec.boundaries df) = length (unique (map v_Cluster df)).
Proof.
  unfold Spec.boundaries. rewrite length_map, cyclic_pairs_length.
  apply Permutation_length, ordered_labels_perm.
Qed.

(** *** Claims on the boundary calculator *)

Lemma rotate_nat_add_1 (i len : nat) :
  rotate_nat_add 1 i len = ((i + 1) mod len)%nat.
Proof.
  unfold rotate_nat_add.
  rewrite <- Nat2Z.inj_add, <- Nat2Z.inj_mod, Nat2Z.id. f_equal. lia.
Qed.

Lemma StronglySorted_lookup {A : Type} (R : A -> A -> Prop) (l : list A)
      (i j : nat) (a b : A) :
  StronglySorted R l -> (i < j)%nat -> l !! i = Some a -> l !! j = Some b -> R a b.
Proof.
  intros Hsorted. revert i j. induction Hsorted as [|h t Ht IH Hh]; intros i j Hij Ha Hb.
  - discriminate.
  - destruct j as [|j]; [lia|]. destruct i as [|i]; simpl in *.
    + inversion Ha; subst. rewrite Forall_forall in Hh. apply Hh.
      apply list_elem_of_lookup. now exists j.
    + apply (IH i j); [lia|assumption..].
Qed.











Example seam_sectors_boundaries :
  ordered_labels seam_sectors = ["B"; "C"; "A"]%char
  /\ reduced (Return (Spec.boundaries seam_sectors)) = Return [Some 70%Q; Some 250%Q; Some 0%Q]
  /\ reduced (boundary_angles seam_sectors)
     = Return [Some (-40 # 1)%Q; Some (-220 # 1)%Q; Some 30%Q].
Proof. repeat split; vm_compute; reflexivity. Qed.


Lemma visualize_clusters_perm (df : list vis_row) :
  exists bs, visualize_clusters df = Return bs /\ bs ≡ₚ map mirrored (Spec.boundaries df).
Proof.
  unfold visualize_clusters. rewrite boundary_angles_eq, bind_Return.
  eexists. split; [reflexivity|]. apply sorted_perm.
Qed.

Lemma mirrored_boundaries_range (df : list vis_row) :
  Forall (fun b => exists q, b = Some q /\ (- (330) < q <= 30)%Q)
         (map mirrored (Spec.boundaries df)).
Proof.
  apply Forall_forall. intros b Hb. change (map ?f ?l) with (f <$> l) in Hb.
  apply list_elem_of_fmap in Hb as (m & -> & Hm).
  apply mirrored_range. pose proof (boundaries_range df) as Hall.
  rewrite Forall_forall in Hall. now apply Hall.
Qed.

(** C8, as amended: for an assignment with K groups that all have members the
    calculator produces exactly K boundary angles; every boundary midpoint
    lies in [0, 360), and the angle put in the sequence is that midpoint
    mirrored, [-b + 30], a number in (-330, 30]. *)
Theorem boundary_count_and_range (df : list vis_row) (K : nat) :
  length (unique (map v_Cluster df)) = K ->
  exists bs,
    visualize_clusters df = Return bs
    /\ length bs = K
    /\ bs ≡ₚ map mirrored (Spec.boundaries df)
    /\ Forall (within 0 360) (Spec.boundaries df)
    /\ Forall (fun b => exists q, b = Some q /\ (- (330) < q <= 30)%Q) bs.
Proof.
  intros HK. destruct (visualize_clusters_perm df) as (bs & Hbs & Hperm).
  exists bs. split; [exact Hbs|]. split; [|split; [exact Hperm|split]].
  - now rewrite Hperm, length_map, boundaries_length.
  - apply boundaries_range.
  - rewrite Hperm. apply mirrored_boundaries_range.
Qed.

Lemma boundary_count_and_range_witness :
  length (unique (map v_Cluster seam_sectors)) = 3%nat
  /\ exists bs,
       visualize_clusters seam_sectors = Return bs
       /\ length bs = 3%nat
       /\ bs ≡ₚ map mirrored (Spec.boundaries seam_sectors)
       /\ Forall (within 0 360) (Spec.boundaries seam_sectors)
       /\ Forall (fun b => exists q, b = Some q /\ (- (330) < q <= 30)%Q) bs.
Proof.
  split; [reflexivity|].
  apply (boundary_count_and_range seam_sectors 3). reflexivity.
Defined.

(** Two groups, A at 10 and 20 degrees and B at 100 and 200: the sequence
    holds -255 and -30, neither of them in [0, 360). *)
Lemma boundary_count_and_range_counterexample :
  length (unique (map v_Cluster two_sectors)) = 2%nat
  /\ reduced (visualize_clusters two_sectors) = Return [Some (-255 # 1)%Q; Some (-30 # 1)%Q]
  /\ exists bs,
       visualize_clusters two_sectors = Return bs
       /\ Forall (fun b => ~ within 0 360 b) bs.
Proof.
  split; [reflexivity|]. split; [vm_compute; reflexivity|].
  eexists. split; [reflexivity|].
  repeat constructor; intros (q & [= <-] & Hlo & _); vm_compute in Hlo; now apply Hlo.
Qed.

(** C9, as amended: the calculator takes its groups from the labels that occur
    in the [Cluster] column, so a group without members is not among them; on
    every assignment it raises no error and yields one boundary, never NaN,
    per label that occurs. *)
Theorem boundary_angles_skip_empty_groups (df : list vis_row) :
  exists bs,
    boundary_angles df = Return bs
    /\ length bs = length (unique (map v_Cluster df))
    /\ Forall is_Some bs
    /\ forall c, c ∉ map v_Cluster df -> c ∉ ordered_labels df.
Proof.
  exists (map mirrored (Spec.boundaries df)).
  split; [apply boundary_angles_eq|]. split; [|split].
  - now rewrite length_map, boundaries_length.
  - eapply Forall_impl; [apply mirrored_boundaries_range|].
    intros b (q & -> & _). now exists q.
  - intros c Hc Hin. now apply Hc, ordered_labels_occur.
Qed.

(** The assignment returned for three participants and six groups has no
    member in group D (nor in E or F); the calculator raises nothing and
    yields three boundaries. *)
Lemma boundary_angles_skip_empty_groups_counterexample :
  exists df vf bs,
    Reference.partition three_points 6 = Return (Some (df, 0))
    /\ group_size "D" (map Cluster df) = 0%nat
    /\ labelled df = Some vf
    /\ boundary_angles vf = Return bs
    /\ length bs = 3%nat.
Proof.
  eexists. eexists. eexists.
  split; [vm_compute; reflexivity|].
  split; [vm_compute; reflexivity|].
  split; [vm_compute; reflexivity|].
  split; [vm_compute; reflexivity|].
  reflexivity.
Qed.

(** * Further properties *)

(** ** What a returned frame holds *)

Lemma with_angle_point (pca_df : list pca_row) (angles : list Q) :
  length angles = length pca_df ->
  map t_point (with_angle pca_df angles) = pca_df.
Proof.
  intros Hlen. unfold with_angle. rewrite map_map. simpl.
  transitivity ((zip (zip (seq 0 (length pca_df)) pca_df) angles).*1.*2).
  - now rewrite <- list_fmap_compose.
  - rewrite fst_zip by (rewrite length_zip, length_seq; lia).
    apply snd_zip. rewrite length_seq. lia.
Qed.

Lemma with_angle_Angle (pca_df : list pca_row) (angles : list Q) :
  length angles = length pca_df ->
  map t_Angle (with_angle pca_df angles) = angles.
Proof.
  intros Hlen. unfold with_angle. rewrite map_map. simpl.
  change (map (fun x : nat * pca_row * Q => x.2) ?l) with (l.*2).
  change (combine ?a ?b) with (zip a b).
  apply snd_zip. rewrite ?length_zip, ?length_combine, length_seq. lia.
Qed.

Lemma map_back_columns (temp_df : list temp_row) (temp_df_sorted : list (temp_row * ascii)) :
  map index (map_back temp_df temp_df_sorted) = map t_index temp_df
  /\ map point (map_back temp_df temp_df_sorted) = map t_point temp_df
  /\ map Angle (map_back temp_df temp_df_sorted) = map t_Angle temp_df.
Proof. unfold map_back. now rewrite !map_map. Qed.

Section ReturnedFrame.

Variable arctan2 : Q -> Q -> Q.
Variable degrees : Q -> Q.
Variable sort_values : list temp_row -> list temp_row.

Local Abbreviation partition := (find_optimal_clustering arctan2 degrees sort_values).

(** A pass that hands back a frame built it from [temp_df] by the dictionary
    of lines 148-149. *)
Lemma trial_Some_inv (pca_df : list pca_row) (K per extra o : Z) (labels : list ascii)
      (df : list out_row) :
  trial arctan2 degrees sort_values pca_df K per extra labels o = Return (Some df) ->
  exists temp_df_sorted,
    df = map_back (with_angle pca_df (angles_degrees arctan2 degrees pca_df o)) temp_df_sorted.
Proof.
  unfold trial.
  destruct (label_runs labels per extra (Py.range K) []) as [assignments|e]; [|discriminate].
  rewrite bind_Return.
  destruct (set_cluster _ _) as [temp_df_sorted|e]; [|discriminate].
  rewrite bind_Return. destruct (balanced _ _); [|discriminate].
  intros [= <-]. now exists temp_df_sorted.
Qed.

Lemma find_optimal_clustering_trial (pca_df : list pca_row) (K : Z)
      (df : list out_row) (o : Z) :
  partition pca_df K = Return (Some (df, o)) ->
  trial_at arctan2 degrees sort_values pca_df K o = Return (Some df).
Proof.
  unfold find_optimal_clustering, Py.floordiv, Py.imod.
  destruct (Z.eqb_spec K 0) as [HK0|_]; [discriminate|].
  rewrite !bind_Return. intros Hres.
  now apply search_first in Hres as (pre & post & _ & Ho & _).
Qed.

(** X1: a returned frame holds the rows of the input, every participant once
    and in input order, with index labels 0..N-1 and with the angles of the
    returned offset; so the assignments file lists the participant ids of the
    input in input order. This needs nothing of the library functions. *)
Theorem returned_frame_keeps_participants (pca_df : list pca_row) (K : Z)
        (df : list out_row) (o : Z) :
  partition pca_df K = Return (Some (df, o)) ->
  map point df = pca_df
  /\ map index df = seq 0 (length pca_df)
  /\ map Angle df = angles_degrees arctan2 degrees pca_df o
  /\ map fst (assignments_csv df) = map pid pca_df.
Proof.
  intros Hres. apply find_optimal_clustering_trial in Hres.
  apply trial_Some_inv in Hres as [temp_df_sorted ->].
  destruct (map_back_columns (with_angle pca_df (angles_degrees arctan2 degrees pca_df o))
                             temp_df_sorted) as (Hindex & Hpoint & HAngle).
  assert (Hp : map point (map_back (with_angle pca_df (angles_degrees arctan2 degrees pca_df o))
                                   temp_df_sorted) = pca_df).
  { rewrite Hpoint. apply with_angle_point, angles_degrees_length. }
  split; [exact Hp|]. split; [|split].
  - rewrite Hindex. apply with_angle_index, angles_degrees_length.
  - rewrite HAngle. apply with_angle_Angle, angles_degrees_length.
  - unfold assignments_csv. rewrite map_map. simpl.
    rewrite <- (map_map point pid). now rewrite Hp.
Qed.

(** X2: whatever the coordinates and the offset, every computed angle lies in
    [0, 360). *)
Theorem angles_degrees_range (pca_df : list pca_row) (o : Z) :
  Forall (fun a => (0 <= a < 360)%Q) (angles_degrees arctan2 degrees pca_df o).
Proof.
  unfold angles_degrees. apply Forall_forall. intros a Ha.
  change (map ?f ?l) with (f <$> l) in Ha.
  apply list_elem_of_fmap in Ha as (x & -> & _). apply fmod_360_range.
Qed.

Hypothesis sort_values_perm : forall rows, sort_values rows ≡ₚ rows.

Lemma find_optimal_clustering_empty (K : Z) :
  K <> 0 -> K <= 6 -> partition [] K = Return None.
Proof.
  intros HK0 HK6. unfold find_optimal_clustering, Py.floordiv, Py.imod.
  destruct (Z.eqb_spec K 0) as [HK0'|_]; [lia|].
  rewrite !bind_Return. apply search_exhausted. intros o.
  assert (Hruns : exists assignments,
             label_runs (Py.slice_to ABCDEF K) (Z.of_nat (length (@nil pca_row)) / K)
                        (Z.of_nat (length (@nil pca_row)) mod K) (Py.range K) []
             = Return assignments).
  { rewrite range_unfold. destruct (Z_lt_ge_dec K 0) as [HKneg|HKpos].
    - replace (Z.to_nat K) with 0%nat by lia. now exists [].
    - eexists. apply label_runs_runs. rewrite slice_to_ABCDEF_length; lia. }
  destruct Hruns as [assignments Ha].
  eapply trial_empty_frame; [exact sort_values_perm|exact Ha].
Qed.

Lemma find_optimal_clustering_negative (pca_df : list pca_row) (K : Z) :
  K < 0 -> pca_df <> [] -> partition pca_df K = Raise ValueError.
Proof.
  intros HK Hne. unfold find_optimal_clustering, Py.floordiv, Py.imod.
  destruct (Z.eqb_spec K 0) as [HK0|_]; [lia|].
  rewrite !bind_Return, range3_0_360.
  now apply search_raise, trial_negative.
Qed.

(** The five outcomes of a call. *)
Lemma find_optimal_clustering_cases (pca_df : list pca_row) (K : Z) :
  (K = 0 /\ partition pca_df K = Raise ZeroDivisionError)
  \/ (6 < K /\ partition pca_df K = Raise IndexError)
  \/ (K < 0 /\ pca_df <> [] /\ partition pca_df K = Raise ValueError)
  \/ (K <> 0 /\ K <= 6 /\ pca_df = [] /\ partition pca_df K = Return None)
  \/ (1 <= K <= 6 /\ pca_df <> []
      /\ partition pca_df K
         = Return (Some (trial_frame arctan2 degrees sort_values pca_df K 0, 0))).
Proof.
  destruct (Z.eq_dec K 0) as [->|HK0]; [left; now split|].
  destruct (Z_le_gt_dec K 6) as [HK6|HK6].
  2:{ right; left. split; [lia|]. apply find_optimal_clustering_IndexError. lia. }
  destruct pca_df as [|p rest].
  { do 3 right; left. repeat split; try assumption.
    now apply find_optimal_clustering_empty. }
  destruct (Z_lt_ge_dec K 0) as [HKneg|HKpos].
  - right; right; left. repeat split; [exact HKneg|discriminate|].
    now apply find_optimal_clustering_negative.
  - do 4 right. repeat split; [lia|lia|discriminate|].
    apply find_optimal_clustering_first; [exact sort_values_perm|lia|discriminate].
Qed.

(** X3: a call returns an assignment exactly when there is at least one
    participant and between one and six groups are asked for; the offset it
    returns is then 0, no other offset is ever returned. *)
Theorem partition_returns_iff (pca_df : list pca_row) (K : Z) :
  ((exists df o, partition pca_df K = Return (Some (df, o)))
   <-> 1 <= K <= 6 /\ pca_df <> [])
  /\ forall df o, partition pca_df K = Return (Some (df, o)) -> o = 0.
Proof.
  destruct (find_optimal_clustering_cases pca_df K)
    as [[HK ->]|[[HK ->]|[(HK & Hne & ->)|[(HK0 & HK6 & Hnil & ->)|(HK & Hne & ->)]]]].
  - split; [split; [intros (df & o & [=])|lia]|discriminate].
  - split; [split; [intros (df & o & [=])|lia]|discriminate].
  - split; [split; [intros (df & o & [=])|lia]|discriminate].
  - split; [split; [intros (df & o & [=])|tauto]|discriminate].
  - split; [split; [tauto|eauto]|now intros df o [= _ <-]].
Qed.

(** X4: a call reports that no arrangement was found, [(None, None)], exactly
    when the frame is empty and the group count is neither 0 nor above 6. *)
Theorem partition_not_found_iff (pca_df : list pca_row) (K : Z) :
  partition pca_df K = Return None <-> pca_df = [] /\ K <> 0 /\ K <= 6.
Proof.
  destruct (find_optimal_clustering_cases pca_df K)
    as [[HK ->]|[[HK ->]|[(HK & Hne & ->)|[(HK0 & HK6 & Hnil & ->)|(HK & Hne & ->)]]]].
  - split; [discriminate|lia].
  - split; [discriminate|lia].
  - split; [discriminate|tauto].
  - tauto.
  - split; [discriminate|tauto].
Qed.

End ReturnedFrame.

(** ** The groups are angular sectors *)

(** Along the label list, a later position never carries an earlier label. *)
Lemma runs_lookup_mono (per extra : Z) (ls : list ascii) (i : Z) (p1 p2 : nat) (x1 x2 : ascii) :
  runs per extra ls i !! p1 = Some x1 -> runs per extra ls i !! p2 = Some x2 ->
  (p1 <= p2)%nat ->
  exists j1 j2, (j1 <= j2)%nat /\ ls !! j1 = Some x1 /\ ls !! j2 = Some x2.
Proof.
  revert i p1 p2. induction ls as [|l t IH]; intros i p1 p2 H1 H2 Hp; [discriminate|].
  cbn [runs] in H1, H2.
  apply lookup_app_Some in H1 as [H1|[Hlen1 H1]];
    apply lookup_app_Some in H2 as [H2|[Hlen2 H2]].
  - exists 0%nat, 0%nat.
    apply list_elem_of_lookup_2, list_elem_of_In, repeat_spec in H1.
    apply list_elem_of_lookup_2, list_elem_of_In, repeat_spec in H2.
    subst. now repeat split.
  - assert (Hin : x2 ∈ t).
    { eapply runs_labels, list_elem_of_lookup_2, H2. }
    apply list_elem_of_lookup in Hin as [j2 Hj2].
    apply list_elem_of_lookup_2, list_elem_of_In, repeat_spec in H1. subst.
    exists 0%nat, (S j2). repeat split; [lia|exact Hj2].
  - apply lookup_lt_Some in H2. lia.
  - destruct (IH (i + 1) _ _ H1 H2 ltac:(lia)) as (j1 & j2 & Hj & Hj1 & Hj2).
    exists (S j1), (S j2). repeat split; [lia|assumption..].
Qed.

Lemma with_angle_lookup_index (pca_df : list pca_row) (angles : list Q) (r : temp_row) :
  length angles = length pca_df ->
  r ∈ with_angle pca_df angles ->
  with_angle pca_df angles !! t_index r = Some r.
Proof.
  intros Hlen Hin. apply list_elem_of_lookup in Hin as [q Hq].
  pose proof (with_angle_index pca_df angles Hlen) as Hidx.
  apply (f_equal (fun l => l !! q)) in Hidx.
  change (map t_index ?l) with (t_index <$> l) in Hidx.
  rewrite list_lookup_fmap, Hq in Hidx. simpl in Hidx.
  assert (Hlt : (q < length pca_df)%nat).
  { apply lookup_lt_Some in Hq. now rewrite with_angle_length in Hq. }
  rewrite lookup_seq_lt in Hidx by exact Hlt. simpl in Hidx.
  inversion Hidx as [Heq]. now rewrite Heq.
Qed.

(** The dictionary of line 148 holds, for the row at a position of the sorted
    frame, the label at the same position. *)
Lemma cluster_mapping_lookup (temp_df temp_df_sorted : list temp_row)
      (assignments : list ascii) (p : nat) (r : temp_row) (x : ascii) :
  NoDup (map t_index temp_df) ->
  temp_df_sorted ≡ₚ temp_df ->
  length assignments = length temp_df_sorted ->
  temp_df_sorted !! p = Some r -> assignments !! p = Some x ->
  dict_of_zip (map (fun ra : temp_row * ascii => t_index ra.1) (combine temp_df_sorted assignments))
              (map snd (combine temp_df_sorted assignments)) !! t_index r = Some x.
Proof.
  intros Hnd Hperm Hlen Hr Hx.
  change (combine ?a ?b) with (zip a b).
  assert (Hkeys : map (fun ra : temp_row * ascii => t_index ra.1) (zip temp_df_sorted assignments)
                  = map t_index temp_df_sorted).
  { rewrite <- (fst_zip temp_df_sorted assignments) at 2 by lia. now rewrite map_map. }
  assert (Hvals : map snd (zip temp_df_sorted assignments) = assignments).
  { apply snd_zip. lia. }
  rewrite Hkeys, Hvals. unfold dict_of_zip. apply fold_insert_lookup.
  - change (combine ?a ?b) with (zip a b). rewrite fst_zip by (rewrite length_map; lia).
    now rewrite (Permutation_map t_index Hperm).
  - change (combine ?a ?b) with (zip a b).
    apply list_elem_of_lookup. exists p. apply lookup_zip_Some. split; [|exact Hx].
    change (map t_index ?l) with (t_index <$> l). now rewrite list_lookup_fmap, Hr.
Qed.

Lemma run_sizes_even (per : Z) (ls : list ascii) (i : Z) :
  0 <= i -> Forall (fun s => s = Z.to_nat per) (run_sizes per 0 ls i).
Proof.
  revert i. induction ls as [|l t IH]; intros i Hi; simpl; constructor.
  - unfold run_size. destruct (Z.ltb_spec i 0); [lia|reflexivity].
  - apply IH. lia.
Qed.

Section Sectors.

Variable arctan2 : Q -> Q -> Q.
Variable degrees : Q -> Q.
Variable sort_values : list temp_row -> list temp_row.
Hypothesis sort_values_perm : forall rows, sort_values rows ≡ₚ rows.

Local Abbreviation partition := (find_optimal_clustering arctan2 degrees sort_values).
Local Abbreviation frame := (trial_frame arctan2 degrees sort_values).
Local Abbreviation temp_df_at :=
  (fun pca_df o => with_angle pca_df (angles_degrees arctan2 degrees pca_df o)).

(** A returned frame is the frame of the pass at offset 0. *)
Lemma find_optimal_clustering_Some_inv (pca_df : list pca_row) (K : Z)
      (df : list out_row) (o : Z) :
  partition pca_df K = Return (Some (df, o)) ->
  1 <= K <= 6 /\ pca_df <> [] /\ o = 0 /\ df = frame pca_df K 0.
Proof.
  intros Hres.
  destruct (find_optimal_clustering_cases arctan2 degrees sort_values sort_values_perm pca_df K)
    as [[HK H]|[[HK H]|[(HK & Hne & H)|[(HK0 & HK6 & Hnil & H)|(HK & Hne & H)]]]];
    rewrite H in Hres; try discriminate.
  inversion Hres; subst. now repeat split.
Qed.

(** X5: when K divides N (1 <= K <= 6, N >= 1), every one of the K groups has
    exactly N / K members. *)
Theorem partition_even_split (pca_df : list pca_row) (K : Z) :
  1 <= K <= 6 -> pca_df <> [] -> Z.of_nat (length pca_df) mod K = 0 ->
  exists df,
    partition pca_df K = Return (Some (df, 0))
    /\ Forall (fun s => Z.of_nat s = Z.of_nat (length pca_df) / K)
              (group_sizes (Py.slice_to ABCDEF K) df).
Proof.
  intros HK Hne Hmod. exists (frame pca_df K 0). split.
  - now apply find_optimal_clustering_first.
  - rewrite trial_frame_group_sizes, Hmod by assumption.
    eapply Forall_impl; [apply run_sizes_even; lia|].
    intros s ->. apply Z2Nat.id, Z.div_pos; lia.
Qed.

(** The row at position p of the sorted frame, as it stands in the frame of
    the pass. *)
Lemma trial_frame_sorted_row (pca_df : list pca_row) (K o : Z) (p : nat) (r : temp_row) :
  1 <= K <= 6 ->
  sort_values (temp_df_at pca_df o) !! p = Some r ->
  exists x,
    runs (Z.of_nat (length pca_df) / K) (Z.of_nat (length pca_df) mod K)
         (Py.slice_to ABCDEF K) 0 !! p = Some x
    /\ frame pca_df K o !! t_index r
       = Some (mk_out_row (t_index r) (t_point r) (t_Angle r) (Some x)).
Proof.
  intros HK Hr.
  pose proof (runs_total pca_df K HK) as Htotal. cbv zeta in Htotal.
  pose proof (angles_degrees_length arctan2 degrees pca_df o) as Hangles.
  assert (Hlen : length (sort_values (temp_df_at pca_df o)) = length pca_df).
  { rewrite (Permutation_length (sort_values_perm _)). now apply with_angle_length. }
  destruct (lookup_lt_is_Some_2
              (runs (Z.of_nat (length pca_df) / K) (Z.of_nat (length pca_df) mod K)
                    (Py.slice_to ABCDEF K) 0) p) as [x Hx].
  { rewrite Htotal, <- Hlen. eapply lookup_lt_Some, Hr. }
  exists x. split; [exact Hx|].
  assert (Hin : r ∈ temp_df_at pca_df o).
  { rewrite <- (sort_values_perm (temp_df_at pca_df o)).
    eapply list_elem_of_lookup_2, Hr. }
  unfold trial_frame, map_back. cbv zeta.
  change (map ?f ?l) with (f <$> l) at 1.
  rewrite list_lookup_fmap,
    (with_angle_lookup_index pca_df (angles_degrees arctan2 degrees pca_df o) r Hangles Hin).
  simpl. do 2 f_equal.
  apply (cluster_mapping_lookup
           (temp_df_at pca_df o) (sort_values (temp_df_at pca_df o))
           (runs (Z.of_nat (length pca_df) / K) (Z.of_nat (length pca_df) mod K)
                 (Py.slice_to ABCDEF K) 0) p r x); try assumption.
  - rewrite with_angle_index by exact Hangles. apply NoDup_seq.
  - apply sort_values_perm.
  - lia.
Qed.

(** X6: reading the labels back through the dictionary undoes the sort: the
    row that the sort puts at position p is, in the returned frame, at the
    position of its index label, unchanged, and carries the p-th label of the
    run list. *)
Theorem map_back_undoes_sort (pca_df : list pca_row) (K : Z) (df : list out_row) (o : Z)
        (p : nat) (r : temp_row) :
  partition pca_df K = Return (Some (df, o)) ->
  sort_values (temp_df_at pca_df o) !! p = Some r ->
  exists x,
    runs (Z.of_nat (length pca_df) / K) (Z.of_nat (length pca_df) mod K)
         (Py.slice_to ABCDEF K) 0 !! p = Some x
    /\ df !! t_index r = Some (mk_out_row (t_index r) (t_point r) (t_Angle r) (Some x)).
Proof.
  intros Hres Hr. apply find_optimal_clustering_Some_inv in Hres as (HK & Hne & -> & ->).
  now apply trial_frame_sorted_row.
Qed.

(** Every row of the frame of a pass sits at some position of the sorted
    frame and carries the label of that position. *)
Lemma trial_frame_row_position (pca_df : list pca_row) (K o : Z) (r : out_row) :
  1 <= K <= 6 ->
  r ∈ frame pca_df K o ->
  exists (p : nat) (t : temp_row) (x : ascii),
    sort_values (temp_df_at pca_df o) !! p = Some t
    /\ runs (Z.of_nat (length pca_df) / K) (Z.of_nat (length pca_df) mod K)
            (Py.slice_to ABCDEF K) 0 !! p = Some x
    /\ Cluster r = Some x /\ Angle r = t_Angle t.
Proof.
  intros HK Hr.
  pose proof (angles_degrees_length arctan2 degrees pca_df o) as Hangles.
  assert (Ht : exists t, t ∈ temp_df_at pca_df o
                         /\ frame pca_df K o !! t_index t = Some r
                         /\ Angle r = t_Angle t).
  { unfold trial_frame, map_back in *. cbv zeta in *.
    change (map ?f ?l) with (f <$> l) in Hr at 1.
    apply list_elem_of_fmap in Hr as (t & -> & Ht). exists t. split; [exact Ht|].
    split; [|reflexivity].
    change (map ?f ?l) with (f <$> l) at 1.
    now rewrite list_lookup_fmap,
      (with_angle_lookup_index pca_df (angles_degrees arctan2 degrees pca_df o) t Hangles Ht). }
  destruct Ht as (t & Ht & Hrow & HAngle).
  assert (Hts : t ∈ sort_values (temp_df_at pca_df o)) by now rewrite sort_values_perm.
  apply list_elem_of_lookup in Hts as [p Hp].
  destruct (trial_frame_sorted_row pca_df K o p t HK Hp) as (x & Hx & Hrow').
  rewrite Hrow in Hrow'. inversion Hrow'; subst.
  exists p, t, x. now repeat split.
Qed.

Hypothesis sort_values_ascending : forall rows, ascending (sort_values rows).

(** X7: the groups are contiguous angular sectors. When [sort_values] puts the
    rows in ascending [Angle] order, a participant of a group with an earlier
    label never has a larger angle than a participant of a group with a later
    label. *)
Theorem groups_are_sectors (pca_df : list pca_row) (K : Z) (df : list out_row) (o : Z)
        (r1 r2 : out_row) (i j : nat) (x1 x2 : ascii) :
  partition pca_df K = Return (Some (df, o)) ->
  r1 ∈ df -> r2 ∈ df ->
  Py.slice_to ABCDEF K !! i = Some x1 -> Py.slice_to ABCDEF K !! j = Some x2 ->
  Cluster r1 = Some x1 -> Cluster r2 = Some x2 ->
  (i < j)%nat ->
  (Angle r1 <= Angle r2)%Q.
Proof.
  intros Hres Hr1 Hr2 Hi Hj Hc1 Hc2 Hij.
  apply find_optimal_clustering_Some_inv in Hres as (HK & Hne & -> & ->).
  destruct (trial_frame_row_position pca_df K 0 r1 HK Hr1) as (p1 & t1 & y1 & Hp1 & Hy1 & Hl1 & ->).
  destruct (trial_frame_row_position pca_df K 0 r2 HK Hr2) as (p2 & t2 & y2 & Hp2 & Hy2 & Hl2 & ->).
  assert (y1 = x1) by congruence. assert (y2 = x2) by congruence. subst y1 y2.
  pose proof (slice_to_ABCDEF_NoDup K) as Hnd.
  destruct (Nat.lt_ge_cases p1 p2) as [Hlt|Hge].
  - exact (StronglySorted_lookup _ _ p1 p2 t1 t2 (sort_values_ascending _) Hlt Hp1 Hp2).
  - destruct (runs_lookup_mono _ _ _ _ p2 p1 x2 x1 Hy2 Hy1 Hge) as (j2 & j1 & Hle & Hj2 & Hj1).
    pose proof (NoDup_lookup _ _ _ _ Hnd Hj1 Hi). pose proof (NoDup_lookup _ _ _ _ Hnd Hj2 Hj).
    lia.
Qed.

End Sectors.

(** ** From the partitioner to the drawing *)

Lemma labelled_Some (df : list out_row) :
  Forall (fun r => is_Some (Cluster r)) df ->
  exists vf,
    labelled df = Some vf
    /\ map Some (map v_Cluster vf) = map Cluster df
    /\ map v_Angle vf = map Angle df.
Proof.
  induction 1 as [|r t [x Hx] _ (vt & Hvt & Hc & Ha)].
  - now exists [].
  - exists (mk_vis_row x (Angle r) :: vt). unfold labelled in *.
    cbn. rewrite Hx, Hvt. cbn. now rewrite Hc, Ha.
Qed.

Lemma group_size_elem (x : ascii) (l : list ascii) :
  x ∈ l <-> group_size x (map Some l) <> 0%nat.
Proof.
  unfold group_size. induction l as [|y t IH]; simpl.
  - split; [intros H; now apply elem_of_nil in H|congruence].
  - rewrite elem_of_cons, filter_cons. destruct (decide (Some y = Some x)) as [Heq|Hne].
    + inversion Heq. simpl. split; [discriminate|now left].
    + rewrite <- IH. split; [intros [->|H]; [congruence|exact H]|now right].
Qed.

(** The labels that occur in the run list are the first min(N, K) ones. *)
Lemma runs_occurring (N K : Z) (x : ascii) :
  0 <= N -> 1 <= K <= 6 ->
  x ∈ runs (N / K) (N mod K) (Py.slice_to ABCDEF K) 0
  <-> x ∈ take (Z.to_nat (Z.min N K)) (Py.slice_to ABCDEF K).
Proof.
  intros HN HK. pose proof (slice_to_ABCDEF_NoDup K) as Hnd.
  pose proof (slice_to_ABCDEF_length K ltac:(lia)) as Hlen.
  assert (Hsize : forall j : nat, (j < Z.to_nat K)%nat ->
            run_size (N / K) (N mod K) (0 + Z.of_nat j) <> 0%nat
            <-> (j < Z.to_nat (Z.min N K))%nat).
  { intros j Hj. unfold run_size.
    pose proof (Z.mod_pos_bound N K ltac:(lia)).
    destruct (Z_lt_ge_dec N K) as [Hsmall|Hbig].
    - rewrite Z.div_small, Z.mod_small by lia.
      destruct (Z.ltb_spec (0 + Z.of_nat j) N); simpl; lia.
    - assert (1 <= N / K) by (apply Z.div_le_lower_bound; lia).
      destruct (Z.ltb_spec (0 + Z.of_nat j) (N mod K)); lia. }
  rewrite group_size_elem. split.
  - intros Hocc. destruct (decide (x ∈ Py.slice_to ABCDEF K)) as [Hin|Hout].
    + apply list_elem_of_lookup in Hin as [j Hj].
      rewrite (group_size_runs_lookup _ _ _ 0 j x Hnd Hj) in Hocc.
      apply list_elem_of_lookup. exists j. rewrite lookup_take_lt; [exact Hj|].
      apply Hsize; [|exact Hocc]. apply lookup_lt_Some in Hj. lia.
    + now rewrite group_size_runs_absent in Hocc.
  - intros Hin. apply list_elem_of_lookup in Hin as [j Hj].
    assert (Hjm : (j < Z.to_nat (Z.min N K))%nat).
    { apply lookup_lt_Some in Hj. rewrite length_take in Hj. lia. }
    rewrite lookup_take_lt in Hj by exact Hjm.
    rewrite (group_size_runs_lookup _ _ _ 0 j x Hnd Hj).
    apply Hsize; [|exact Hjm]. apply lookup_lt_Some in Hj. lia.
Qed.

Lemma CLUSTER_COLORS_ABCDEF :
  Forall (fun x => is_Some (CLUSTER_COLORS !! x)) ABCDEF.
Proof. repeat constructor; vm_compute; eauto. Qed.

Lemma CLUSTER_COLORS_inj (x y : ascii) (c : string) :
  CLUSTER_COLORS !! x = Some c -> CLUSTER_COLORS !! y = Some c -> x = y.
Proof.
  unfold CLUSTER_COLORS. intros Hx Hy.
  apply elem_of_list_to_map_2 in Hx. apply elem_of_list_to_map_2 in Hy.
  repeat (apply elem_of_cons in Hx as [Hx|Hx]; [inversion Hx; subst; clear Hx|]);
    try (now apply elem_of_nil in Hx);
    repeat (apply elem_of_cons in Hy as [Hy|Hy]; [inversion Hy; subst; clear Hy|]);
    try (now apply elem_of_nil in Hy); reflexivity.
Qed.

Section Drawing.

Variable arctan2 : Q -> Q -> Q.
Variable degrees : Q -> Q.
Variable sort_values : list temp_row -> list temp_row.
Hypothesis sort_values_perm : forall rows, sort_values rows ≡ₚ rows.

Local Abbreviation partition := (find_optimal_clustering arctan2 degrees sort_values).
Local Abbreviation frame := (trial_frame arctan2 degrees sort_values).

(** The frame of a pass, read by [visualize_clusters]: no label is NaN, and
    the labels that occur are the first min(N, K) letters. *)
Lemma trial_frame_labelled (pca_df : list pca_row) (K o : Z) :
  1 <= K <= 6 ->
  exists vf,
    labelled (frame pca_df K o) = Some vf
    /\ map Some (map v_Cluster vf) = map Cluster (frame pca_df K o)
    /\ length (unique (map v_Cluster vf))
       = Z.to_nat (Z.min (Z.of_nat (length pca_df)) K).
Proof.
  intros HK.
  pose proof (trial_frame_all_labelled arctan2 degrees sort_values sort_values_perm
                                       pca_df K o HK) as Hall.
  destruct (labelled_Some (frame pca_df K o)) as (vf & Hvf & Hc & _).
  { eapply Forall_impl; [exact Hall|]. intros r (x & -> & _). now exists x. }
  exists vf. split; [exact Hvf|]. split; [exact Hc|].
  pose proof (trial_frame_clusters arctan2 degrees sort_values sort_values_perm
                                   pca_df K o HK) as Hperm. cbv zeta in Hperm.
  rewrite <- Hc in Hperm.
  assert (Hocc : forall x,
             x ∈ map v_Cluster vf
             <-> x ∈ runs (Z.of_nat (length pca_df) / K) (Z.of_nat (length pca_df) mod K)
                         (Py.slice_to ABCDEF K) 0).
  { intros x. change (map Some ?l) with (Some <$> l) in Hperm.
    rewrite <- (list_elem_of_fmap_inj Some (map v_Cluster vf) x), Hperm.
    apply (list_elem_of_fmap_inj Some). }
  transitivity (length (take (Z.to_nat (Z.min (Z.of_nat (length pca_df)) K))
                             (Py.slice_to ABCDEF K))).
  - apply Permutation_length, NoDup_Permutation.
    + apply unique_NoDup.
    + eapply sublist_NoDup; [apply slice_to_ABCDEF_NoDup|apply sublist_take].
    + intros x. rewrite unique_elem, Hocc. apply runs_occurring; lia.
  - rewrite length_take, slice_to_ABCDEF_length by lia. lia.
Qed.

Lemma slice_to_ABCDEF_elem (K : Z) (x : ascii) :
  x ∈ Py.slice_to ABCDEF K -> x ∈ ABCDEF.
Proof.
  unfold Py.slice_to. destruct (K <? 0); intros Hx.
  - eapply elem_of_sublist; [exact Hx|apply sublist_take].
  - eapply elem_of_sublist; [exact Hx|apply sublist_take].
Qed.

Lemma trial_frame_point (pca_df : list pca_row) (K o : Z) :
  map point (frame pca_df K o) = pca_df.
Proof.
  unfold trial_frame. cbv zeta.
  destruct (map_back_columns
              (with_angle pca_df (angles_degrees arctan2 degrees pca_df o))
              (combine (sort_values (with_angle pca_df (angles_degrees arctan2 degrees pca_df o)))
                       (runs (Z.of_nat (length pca_df) / K) (Z.of_nat (length pca_df) mod K)
                             (Py.slice_to ABCDEF K) 0))) as (_ & -> & _).
  apply with_angle_point, angles_degrees_length.
Qed.

Lemma visualize_trial_frame (pca_df : list pca_row) (K o : Z) :
  1 <= K <= 6 ->
  exists vf bs,
    labelled (frame pca_df K o) = Some vf
    /\ visualize_clusters vf = Return bs
    /\ Z.of_nat (length bs) = Z.min (Z.of_nat (length pca_df)) K
    /\ Forall (fun b => exists q, b = Some q /\ (- (330) < q <= 30)%Q) bs.
Proof.
  intros HK. destruct (trial_frame_labelled pca_df K o HK) as (vf & Hvf & _ & Hcount).
  destruct (visualize_clusters_perm vf) as (bs & Hbs & Hperm).
  exists vf, bs. split; [exact Hvf|]. split; [exact Hbs|]. split.
  - rewrite Hperm, length_map, boundaries_length, Hcount. lia.
  - rewrite Hperm. apply mirrored_boundaries_range.
Qed.

(** X8: the frame a call returns can be drawn as it is. No label in it is NaN,
    [visualize_clusters] raises nothing on it, and it yields min(N, K)
    boundary angles, one per group that has a member, each a number in
    (-330, 30]. *)
Theorem boundaries_of_returned_frame (pca_df : list pca_row) (K : Z)
        (df : list out_row) (o : Z) :
  partition pca_df K = Return (Some (df, o)) ->
  exists vf bs,
    labelled df = Some vf
    /\ visualize_clusters vf = Return bs
    /\ Z.of_nat (length bs) = Z.min (Z.of_nat (length pca_df)) K
    /\ Forall (fun b => exists q, b = Some q /\ (- (330) < q <= 30)%Q) bs.
Proof.
  intros Hres.
  apply (find_optimal_clustering_Some_inv arctan2 degrees sort_values sort_values_perm)
    in Hres as (HK & _ & _ & ->).
  now apply visualize_trial_frame.
Qed.

Lemma cluster_points_length (df : list out_row) (c : ascii) :
  length (cluster_points df c) = group_size c (map Cluster df).
Proof.
  unfold cluster_points, group_size. rewrite length_map.
  induction df as [|r t IH]; simpl; [reflexivity|].
  rewrite !filter_cons. destruct (decide (Cluster r = Some c)); simpl; now rewrite IH.
Qed.

(** No hull is asked for when no group has more than two members. *)
Lemma fill_cluster_areas_small (ConvexHull : list (Q * Q) -> option (list (nat * nat)))
      (df : list out_row) (labels : list ascii) :
  (forall c, c ∈ labels -> (length (cluster_points df c) <= 2)%nat) ->
  fill_cluster_areas ConvexHull df labels = Some [].
Proof.
  induction labels as [|c rest IH]; intros Hsmall; simpl; [reflexivity|].
  destruct (Nat.ltb_spec 2 (length (cluster_points df c))) as [Hbig|_].
  - specialize (Hsmall c ltac:(left)). lia.
  - apply IH. intros c' Hc'. apply Hsmall. now right.
Qed.

(** The loop fails only where [ConvexHull] fails, on a group of more than two
    members. *)
Lemma fill_cluster_areas_None (ConvexHull : list (Q * Q) -> option (list (nat * nat)))
      (df : list out_row) (labels : list ascii) :
  fill_cluster_areas ConvexHull df labels = None ->
  exists c, c ∈ labels
            /\ (2 < length (cluster_points df c))%nat
            /\ ConvexHull (cluster_points df c) = None.
Proof.
  induction labels as [|c rest IH]; simpl; [discriminate|].
  destruct (Nat.ltb_spec 2 (length (cluster_points df c))) as [Hbig|_].
  - destruct (ConvexHull (cluster_points df c)) as [hull|] eqn:Hhull; simpl.
    + destruct (fill_cluster_areas ConvexHull df rest) as [filled|] eqn:Hrest; simpl;
        [discriminate|].
      intros _. destruct (IH eq_refl) as (c' & Hc' & H). exists c'. split; [now right|exact H].
    + intros _. exists c. split; [left|]. now split.
  - intros Hrest. destruct (IH Hrest) as (c' & Hc' & H). exists c'. split; [now right|exact H].
Qed.

(** With twelve participants or fewer, none of the six groups has more than
    two members. *)
Lemma trial_frame_small_groups (pca_df : list pca_row) (o : Z) (c : ascii) :
  Z.of_nat (length pca_df) <= 12 -> c ∈ ABCDEF ->
  (group_size c (map Cluster (frame pca_df 6 o)) <= 2)%nat.
Proof.
  intros HN Hc. change ABCDEF with (Py.slice_to ABCDEF 6) in Hc.
  apply list_elem_of_lookup in Hc as [j Hj].
  rewrite (group_size_perm c _ _
             (trial_frame_clusters arctan2 degrees sort_values sort_values_perm
                                   pca_df 6 o ltac:(lia))).
  rewrite (group_size_runs_lookup _ _ _ 0 j c (slice_to_ABCDEF_NoDup 6) Hj).
  unfold run_size.
  pose proof (Z.div_mod (Z.of_nat (length pca_df)) 6 ltac:(lia)).
  pose proof (Z.mod_pos_bound (Z.of_nat (length pca_df)) 6 ltac:(lia)).
  destruct (Z.ltb_spec (0 + Z.of_nat j) (Z.of_nat (length pca_df) mod 6)); lia.
Qed.

Variable ConvexHull : list (Q * Q) -> option (list (nat * nat)).

(** X9: [main] works with six groups. On an empty frame it ends with the
    message that no arrangement was found. On any other frame
    [find_optimal_clustering] raises nothing and min(N, 6) boundaries are
    computed; then either the run ends with the [QhullError] of
    [ConvexHull], raised on the points of a group of more than two members,
    and nothing is saved, or the assignments saved list the participant ids
    of the input in input order, each with a label among A..F. With twelve
    participants or fewer [ConvexHull] is never called and the assignments are
    saved. *)
Theorem main_outcomes (pca_df : list pca_row) :
  (pca_df = [] ->
   main_from_pca arctan2 degrees sort_values ConvexHull pca_df = Some (Return CouldNotFind))
  /\ (pca_df <> [] ->
      (exists bs hulls csv,
          main_from_pca arctan2 degrees sort_values ConvexHull pca_df
          = Some (Return (Saved bs hulls csv))
          /\ Z.of_nat (length bs) = Z.min (Z.of_nat (length pca_df)) 6
          /\ map fst csv = map pid pca_df
          /\ Forall (fun row => exists x, row.2 = Some x /\ x ∈ ABCDEF) csv)
      \/ (main_from_pca arctan2 degrees sort_values ConvexHull pca_df
          = Some (Return QhullError)
          /\ exists df c,
               find_optimal_clustering arctan2 degrees sort_values pca_df NUM_CLUSTERS
               = Return (Some (df, 0))
               /\ c ∈ ABCDEF
               /\ (2 < group_size c (map Cluster df))%nat
               /\ ConvexHull (cluster_points df c) = None))
  /\ (pca_df <> [] -> Z.of_nat (length pca_df) <= 12 ->
      exists bs csv,
        main_from_pca arctan2 degrees sort_values ConvexHull pca_df
        = Some (Return (Saved bs [] csv))).
Proof.
  unfold main_from_pca, NUM_CLUSTERS. split; [|split].
  - intros ->.
    now rewrite (find_optimal_clustering_empty arctan2 degrees sort_values sort_values_perm 6)
      by lia.
  - intros Hne.
    pose proof (find_optimal_clustering_first arctan2 degrees sort_values sort_values_perm
                                              pca_df 6 ltac:(lia) Hne) as Hfirst.
    rewrite Hfirst.
    destruct (visualize_trial_frame pca_df 6 0 ltac:(lia)) as (vf & bs & Hvf & Hbs & Hlen & _).
    cbv beta iota.
    destruct (fill_cluster_areas ConvexHull (frame pca_df 6 0) ABCDEF) as [hulls|] eqn:Hfill;
      rewrite Hvf; cbn; rewrite Hbs; cbn.
    + left. exists bs, hulls, (assignments_csv (frame pca_df 6 0)).
      split; [reflexivity|]. split; [exact Hlen|]. split.
      * unfold assignments_csv. rewrite map_map. simpl.
        now rewrite <- (map_map point pid), trial_frame_point.
      * pose proof (trial_frame_all_labelled arctan2 degrees sort_values sort_values_perm
                                             pca_df 6 0 ltac:(lia)) as Hall.
        unfold assignments_csv. apply Forall_forall. intros row Hrow.
        change (map ?f ?l) with (f <$> l) in Hrow.
        apply list_elem_of_fmap in Hrow as (r & -> & Hr).
        unfold all_labelled in Hall. rewrite Forall_forall in Hall.
        destruct (Hall r Hr) as (x & Hx & Hin).
        exists x. split; [exact Hx|]. eapply slice_to_ABCDEF_elem, Hin.
    + right. split; [reflexivity|].
      apply fill_cluster_areas_None in Hfill as (c & Hc & Hbig & Hhull).
      exists (frame pca_df 6 0), c. split; [reflexivity|]. split; [exact Hc|].
      split; [now rewrite <- cluster_points_length|exact Hhull].
  - intros Hne HN.
    rewrite (find_optimal_clustering_first arctan2 degrees sort_values sort_values_perm
                                           pca_df 6) by (lia || exact Hne).
    destruct (visualize_trial_frame pca_df 6 0 ltac:(lia)) as (vf & bs & Hvf & Hbs & _).
    cbv beta iota. rewrite fill_cluster_areas_small.
    + rewrite Hvf. cbn. rewrite Hbs. cbn.
      now exists bs, (assignments_csv (frame pca_df 6 0)).
    + intros c Hc. rewrite cluster_points_length. now apply trial_frame_small_groups.
Qed.

(** X10: every participant of a returned frame gets a colour (line 173 never
    produces NaN), and two participants get the same colour exactly when they
    are in the same group. *)
Theorem returned_frame_colours (pca_df : list pca_row) (K : Z)
        (df : list out_row) (o : Z) :
  partition pca_df K = Return (Some (df, o)) ->
  length (Color df) = length pca_df
  /\ Forall is_Some (Color df)
  /\ forall r1 r2, r1 ∈ df -> r2 ∈ df ->
       ((c ← Cluster r1; CLUSTER_COLORS !! c) = (c ← Cluster r2; CLUSTER_COLORS !! c)
        <-> Cluster r1 = Cluster r2).
Proof.
  intros Hres.
  apply (find_optimal_clustering_Some_inv arctan2 degrees sort_values sort_values_perm)
    in Hres as (HK & _ & _ & ->).
  pose proof (trial_frame_all_labelled arctan2 degrees sort_values sort_values_perm
                                       pca_df K 0 HK) as Hall.
  unfold all_labelled in Hall. rewrite Forall_forall in Hall.
  assert (Hcol : forall r, r ∈ frame pca_df K 0 ->
            exists x c, Cluster r = Some x /\ CLUSTER_COLORS !! x = Some c).
  { intros r Hr. destruct (Hall r Hr) as (x & Hx & Hin).
    apply slice_to_ABCDEF_elem in Hin.
    pose proof CLUSTER_COLORS_ABCDEF as Hcolours. rewrite Forall_forall in Hcolours.
    destruct (Hcolours x Hin) as [c Hc]. now exists x, c. }
  split; [|split].
  - unfold Color. now rewrite length_map, trial_frame_length.
  - unfold Color. apply Forall_forall. intros c Hc.
    change (map ?f ?l) with (f <$> l) in Hc.
    apply list_elem_of_fmap in Hc as (r & -> & Hr).
    destruct (Hcol r Hr) as (x & c & -> & Hc). simpl. now rewrite Hc.
  - intros r1 r2 Hr1 Hr2.
    destruct (Hcol r1 Hr1) as (x1 & c1 & -> & Hc1).
    destruct (Hcol r2 Hr2) as (x2 & c2 & -> & Hc2). simpl.
    split; [|now intros [= ->]].
    rewrite Hc1, Hc2. intros [= ->]. f_equal.
    eapply CLUSTER_COLORS_inj; eassumption.
Qed.

End Drawing.

(** ** Where a boundary lies *)

Lemma Qfloor_unique (y : Q) (k : Z) :
  (inject_Z k <= y < inject_Z (k + 1))%Q -> Qfloor y = k.
Proof.
  intros [Hlo Hhi].
  pose proof (Qfloor_le y) as Hfl. pose proof (Qlt_floor y) as Hfh.
  assert (H1 : (inject_Z (Qfloor y) < inject_Z (k + 1))%Q) by (eapply Qle_lt_trans; eassumption).
  assert (H2 : (inject_Z k < inject_Z (Qfloor y + 1))%Q) by (eapply Qle_lt_trans; eassumption).
  rewrite <- Zlt_Qlt in H1, H2. lia.
Qed.

Lemma fmod_360_small (x : Q) : (0 <= x < 360)%Q -> (Py.fmod x 360 == x)%Q.
Proof.
  intros Hx. unfold Py.fmod.
  assert (Hy : (x == 360 * (x / 360))%Q) by field.
  rewrite (Qfloor_unique (x / 360) 0).
  - change (inject_Z 0) with 0%Q. lra.
  - change (inject_Z 0) with 0%Q. change (inject_Z (0 + 1)) with 1%Q.
    set (y := (x / 360)%Q) in *. split; lra.
Qed.

Lemma fmod_360_once (x : Q) : (360 <= x < 720)%Q -> (Py.fmod x 360 == x - 360)%Q.
Proof.
  intros Hx. unfold Py.fmod.
  assert (Hy : (x == 360 * (x / 360))%Q) by field.
  rewrite (Qfloor_unique (x / 360) 1).
  - change (inject_Z 1) with 1%Q. lra.
  - change (inject_Z 1) with 1%Q. change (inject_Z (1 + 1)) with 2%Q.
    set (y := (x / 360)%Q) in *. split; lra.
Qed.

Lemma series_max_spec (xs : list Q) (M : Q) :
  series_max xs = Some M -> M ∈ xs /\ Forall (fun a => (a <= M)%Q) xs.
Proof.
  revert M. induction xs as [|x t IH]; intros M; simpl; [discriminate|].
  fold (series_max t). destruct (series_max t) as [y|] eqn:Ht; intros [= <-].
  - destruct (IH y eq_refl) as [Hin Hall]. split.
    + unfold Qmax, GenericMinMax.gmax. destruct (x ?= y)%Q; [left|now right|left].
    + constructor; [apply Q.le_max_l|].
      eapply Forall_impl; [exact Hall|]. intros a Ha. simpl in Ha.
      pose proof (Q.le_max_r x y). lra.
  - destruct t; [|discriminate]. split; [left|]. constructor; [lra|constructor].
Qed.

Lemma series_min_spec (xs : list Q) (m : Q) :
  series_min xs = Some m -> m ∈ xs /\ Forall (fun a => (m <= a)%Q) xs.
Proof.
  revert m. induction xs as [|x t IH]; intros m; simpl; [discriminate|].
  fold (series_min t). destruct (series_min t) as [y|] eqn:Ht; intros [= <-].
  - destruct (IH y eq_refl) as [Hin Hall]. split.
    + unfold Qmin, GenericMinMax.gmin. destruct (x ?= y)%Q; [left|left|now right].
    + constructor; [apply Q.le_min_l|].
      eapply Forall_impl; [exact Hall|]. intros a Ha. simpl in Ha.
      pose proof (Q.le_min_r x y). lra.
  - destruct t; [|discriminate]. split; [left|]. constructor; [lra|constructor].
Qed.

(** The midpoint rule puts the boundary on the arc from [M] to [m]. *)
Lemma midpoint_on_arc (M m : Q) :
  (0 <= M < 360)%Q -> (0 <= m < 360)%Q ->
  on_arc M m (Py.fmod ((M + (if Py.flt (Some m) (Some M) then m + 360 else m)) / 2) 360)%Q.
Proof.
  intros HM Hm. simpl. unfold on_arc.
  destruct (Qle_bool M m) eqn:Hle; simpl.
  - apply Qle_bool_iff in Hle.
    assert (Hx : (2 * ((M + m) / 2) == M + m)%Q) by field.
    set (x := ((M + m) / 2)%Q) in *.
    assert (Hb : (Py.fmod x 360 == x)%Q) by (apply fmod_360_small; split; lra).
    split; [intros _; split; lra|intros Hlt; lra].
  - assert (Hlt : (m < M)%Q).
    { apply Qnot_le_lt. intros Hc. apply Qle_bool_iff in Hc. congruence. }
    assert (Hx : (2 * ((M + (m + 360)) / 2) == M + m + 360)%Q) by field.
    set (x := ((M + (m + 360)) / 2)%Q) in *.
    split; [intros Hc; lra|intros _].
    destruct (Qlt_le_dec x 360) as [Hsmall|Hbig].
    + left. assert (Hb : (Py.fmod x 360 == x)%Q) by (apply fmod_360_small; split; lra).
      split; lra.
    + right. assert (Hb : (Py.fmod x 360 == x - 360)%Q) by (apply fmod_360_once; split; lra).
      split; lra.
Qed.

(** X11: with all angles in [0, 360), the boundary after a group separates it
    from its successor. If the successor starts at or above the largest angle
    M of the group, the boundary lies between M and the successor's smallest
    angle m, so no member of the group is beyond it and no member of the
    successor before it; if the successor starts below M (the 0/360 seam), the
    boundary lies in [M, 360) or in [0, m]. *)
Theorem boundary_separates_groups (df : list vis_row) (i : nat) (current next : ascii) :
  Forall (fun r => (0 <= v_Angle r < 360)%Q) df ->
  ordered_labels df !! i = Some current ->
  ordered_labels df !! ((i + 1) mod length (ordered_labels df))%nat = Some next ->
  exists M m b,
    series_max (angles_of df current) = Some M
    /\ series_min (angles_of df next) = Some m
    /\ Forall (fun a => (a <= M)%Q) (angles_of df current)
    /\ Forall (fun a => (m <= a)%Q) (angles_of df next)
    /\ boundary_angle df (ordered_labels df) (Z.of_nat i) = Return (Some b)
    /\ on_arc M m b.
Proof.
  intros Hrange Hc Hn.
  assert (Hangles : forall c a, a ∈ angles_of df c -> (0 <= a < 360)%Q).
  { intros c a Ha. unfold angles_of in Ha. change (map ?f ?l) with (f <$> l) in Ha.
    apply list_elem_of_fmap in Ha as (r & -> & Hr).
    apply list_elem_of_filter in Hr as [_ Hr].
    rewrite Forall_forall in Hrange. now apply Hrange. }
  assert (Hrot : rotate 1 (ordered_labels df) !! i = Some next).
  { rewrite lookup_rotate_r by (now apply lookup_lt_Some in Hc).
    now rewrite rotate_nat_add_1. }
  destruct (series_max_is_Some (angles_of df current)) as [M HM].
  { apply angles_of_occurring, ordered_labels_occur.
    apply list_elem_of_lookup. now exists i. }
  destruct (series_min_is_Some (angles_of df next)) as [m Hm].
  { apply angles_of_occurring, ordered_labels_occur.
    apply list_elem_of_lookup. eauto. }
  destruct (series_max_spec _ _ HM) as [HMin HMall].
  destruct (series_min_spec _ _ Hm) as [Hmin Hmall].
  exists M, m. eexists. split; [exact HM|]. split; [exact Hm|].
  split; [exact HMall|]. split; [exact Hmall|]. split.
  - rewrite (boundary_angle_pair df _ i current next Hc Hrot).
    unfold Spec.midpoint. rewrite HM, Hm. reflexivity.
  - apply midpoint_on_arc; eapply Hangles; eassumption.
Qed.

(** ** The vote encoding *)

(** X12: whenever preprocessing returns a frame, the frame has the columns of
    the frame read, every vote column (every column but the first) keeps its
    length, and each of its cells is 1 when the cell read is exactly the
    string yes, 0 when it is exactly the string no, and 0.5 in every other
    case: an empty cell, a number, any other string. Preprocessing raises
    exactly when [fillna(0.5)] raises on the first column, which line 55
    leaves as read. *)
Theorem load_and_preprocess_data_encoding
        (fillna_first : list raw_cell -> option (list cell)) (df : list (list raw_cell)) :
  (forall out, load_and_preprocess_data fillna_first df = Some out ->
     length out = length df
     /\ map length (tail out) = map length (tail df)
     /\ forall (j i : nat) (col : list raw_cell) (c : raw_cell),
          df !! S j = Some col -> col !! i = Some c ->
          exists q,
            (out !! S j) ≫= (fun col' => col' !! i) = Some (Number q)
            /\ (q = 1%Q <-> c = Str "yes")
            /\ (q = 0%Q <-> c = Str "no")
            /\ (q = (1 # 2)%Q <-> c <> Str "yes" /\ c <> Str "no"))
  /\ (load_and_preprocess_data fillna_first df = None
      <-> exists first_column, df !! 0%nat = Some first_column
                               /\ fillna_first first_column = None).
Proof.
  destruct df as [|first_column vote_columns]; simpl.
  - split.
    + intros out [= <-]. repeat split; intros; discriminate.
    + split; [discriminate|]. intros (col & Hcol & _). discriminate.
  - destruct (fillna_first first_column) as [first_column'|] eqn:Hfirst; simpl.
    + split.
      * intros out [= <-]. simpl. split; [now rewrite length_map|]. split.
        { rewrite map_map. apply map_ext. intros col. apply length_map. }
        intros j i col c Hcol Hc.
        change (map ?f vote_columns) with (f <$> vote_columns).
        rewrite list_lookup_fmap, Hcol. simpl.
        change (map ?f col) with (f <$> col). rewrite list_lookup_fmap, Hc. simpl.
        destruct c as [|s|q]; simpl.
        -- eexists. split; [reflexivity|]. repeat split; try discriminate; try tauto.
        -- destruct (String.eqb_spec s "yes") as [->|Hyes]; simpl.
           { eexists. split; [reflexivity|].
             repeat split; try discriminate; try tauto; intros [H _]; congruence. }
           destruct (String.eqb_spec s "no") as [->|Hno]; simpl.
           { eexists. split; [reflexivity|].
             repeat split; try discriminate; try tauto; intros [_ H]; congruence. }
           eexists. split; [reflexivity|].
           repeat split; try discriminate; try congruence.
        -- eexists. split; [reflexivity|]. repeat split; try discriminate; try tauto.
      * split; [discriminate|]. intros (col & [= <-] & Hcol). congruence.
    + split; [discriminate|]. split; [|reflexivity].
      intros _. now exists first_column.
Qed.

(** ** The further properties on the example inputs *)

Lemma reference_sort_values_ascending (rows : list temp_row) :
  ascending (Reference.sort_values rows).
Proof.
  unfold Reference.sort_values. induction rows as [|r t IH]; simpl; [constructor|].
  now apply insert_row_ascending.
Qed.

Lemma returned_frame_keeps_participants_witness :
  Reference.partition three_points 2
  = Return (Some (trial_frame Reference.arctan2 Reference.degrees Reference.sort_values
                              three_points 2 0, 0))
  /\ map point (trial_frame Reference.arctan2 Reference.degrees Reference.sort_values
                            three_points 2 0) = three_points
  /\ map index (trial_frame Reference.arctan2 Reference.degrees Reference.sort_values
                            three_points 2 0) = seq 0 (length three_points)
  /\ map Angle (trial_frame Reference.arctan2 Reference.degrees Reference.sort_values
                            three_points 2 0)
     = angles_degrees Reference.arctan2 Reference.degrees three_points 0
  /\ map fst (assignments_csv (trial_frame Reference.arctan2 Reference.degrees
                                           Reference.sort_values three_points 2 0))
     = map pid three_points.
Proof.
  assert (Hres : Reference.partition three_points 2
                 = Return (Some (trial_frame Reference.arctan2 Reference.degrees
                                             Reference.sort_values three_points 2 0, 0)))
    by (vm_compute; reflexivity).
  split; [exact Hres|].
  exact (returned_frame_keeps_participants
           Reference.arctan2 Reference.degrees Reference.sort_values three_points 2 _ 0 Hres).
Defined.

Lemma partition_returns_iff_witness :
  ((exists df o, Reference.partition three_points 2 = Return (Some (df, o)))
   <-> 1 <= 2 <= 6 /\ three_points <> [])
  /\ forall df o, Reference.partition three_points 2 = Return (Some (df, o)) -> o = 0.
Proof.
  exact (partition_returns_iff Reference.arctan2 Reference.degrees Reference.sort_values
                               reference_sort_values_perm three_points 2).
Defined.

Lemma partition_not_found_iff_witness :
  Reference.partition [] 3 = Return None <-> @nil pca_row = [] /\ 3 <> 0 /\ 3 <= 6.
Proof.
  exact (partition_not_found_iff Reference.arctan2 Reference.degrees Reference.sort_values
                                 reference_sort_values_perm [] 3).
Defined.

Lemma partition_even_split_witness :
  (1 <= 4 <= 6 /\ eight_points <> [] /\ Z.of_nat (length eight_points) mod 4 = 0)
  /\ exists df,
       Reference.partition eight_points 4 = Return (Some (df, 0))
       /\ Forall (fun s => Z.of_nat s = Z.of_nat (length eight_points) / 4)
                 (group_sizes (Py.slice_to ABCDEF 4) df).
Proof.
  split; [repeat split; (lia || discriminate || reflexivity)|].
  apply (partition_even_split Reference.arctan2 Reference.degrees Reference.sort_values
                              reference_sort_values_perm eight_points 4);
    [lia|discriminate|reflexivity].
Defined.

Lemma map_back_undoes_sort_witness :
  exists df r x,
    Reference.partition three_points 2 = Return (Some (df, 0))
    /\ Reference.sort_values
         (with_angle three_points
                     (angles_degrees Reference.arctan2 Reference.degrees three_points 0))
       !! 0%nat = Some r
    /\ runs (Z.of_nat (length three_points) / 2) (Z.of_nat (length three_points) mod 2)
            (Py.slice_to ABCDEF 2) 0 !! 0%nat = Some x
    /\ df !! t_index r = Some (mk_out_row (t_index r) (t_point r) (t_Angle r) (Some x)).
Proof.
  assert (Hres : Reference.partition three_points 2
                 = Return (Some (trial_frame Reference.arctan2 Reference.degrees
                                             Reference.sort_values three_points 2 0, 0)))
    by (vm_compute; reflexivity).
  assert (Hr : exists r,
             Reference.sort_values
               (with_angle three_points
                           (angles_degrees Reference.arctan2 Reference.degrees three_points 0))
             !! 0%nat = Some r)
    by (vm_compute; eauto).
  destruct Hr as [r Hr].
  destruct (map_back_undoes_sort Reference.arctan2 Reference.degrees Reference.sort_values
                                 reference_sort_values_perm three_points 2 _ 0 0%nat r Hres Hr)
    as (x & Hx & Hrow).
  exists (trial_frame Reference.arctan2 Reference.degrees Reference.sort_values
                      three_points 2 0), r, x.
  repeat split; assumption.
Defined.

Lemma groups_are_sectors_witness :
  exists df r1 r2,
    Reference.partition three_points 2 = Return (Some (df, 0))
    /\ (r1 ∈ df /\ r2 ∈ df)
    /\ (Py.slice_to ABCDEF 2 !! 0%nat = Some "A"%char
        /\ Py.slice_to ABCDEF 2 !! 1%nat = Some "B"%char)
    /\ (Cluster r1 = Some "A"%char /\ Cluster r2 = Some "B"%char)
    /\ (Angle r1 <= Angle r2)%Q.
Proof.
  assert (Hres : Reference.partition three_points 2
                 = Return (Some (trial_frame Reference.arctan2 Reference.degrees
                                             Reference.sort_values three_points 2 0, 0)))
    by (vm_compute; reflexivity).
  assert (Hrows : exists r1 r2,
             trial_frame Reference.arctan2 Reference.degrees Reference.sort_values
                         three_points 2 0 !! 2%nat = Some r1
             /\ trial_frame Reference.arctan2 Reference.degrees Reference.sort_values
                            three_points 2 0 !! 0%nat = Some r2
             /\ Cluster r1 = Some "A"%char /\ Cluster r2 = Some "B"%char)
    by (vm_compute; eauto 10).
  destruct Hrows as (r1 & r2 & H1 & H2 & Hc1 & Hc2).
  apply list_elem_of_lookup_2 in H1. apply list_elem_of_lookup_2 in H2.
  exists (trial_frame Reference.arctan2 Reference.degrees Reference.sort_values
                      three_points 2 0), r1, r2.
  split; [exact Hres|]. split; [now split|]. split; [now split|]. split; [now split|].
  exact (groups_are_sectors Reference.arctan2 Reference.degrees Reference.sort_values
                            reference_sort_values_perm reference_sort_values_ascending
                            three_points 2 _ 0 r1 r2 0%nat 1%nat "A"%char "B"%char
                            Hres H1 H2 eq_refl eq_refl Hc1 Hc2 ltac:(lia)).
Defined.

Lemma boundaries_of_returned_frame_witness :
  exists df vf bs,
    Reference.partition three_points 6 = Return (Some (df, 0))
    /\ labelled df = Some vf
    /\ visualize_clusters vf = Return bs
    /\ Z.of_nat (length bs) = Z.min (Z.of_nat (length three_points)) 6
    /\ Forall (fun b => exists q, b = Some q /\ (- (330) < q <= 30)%Q) bs.
Proof.
  assert (Hres : Reference.partition three_points 6
                 = Return (Some (trial_frame Reference.arctan2 Reference.degrees
                                             Reference.sort_values three_points 6 0, 0)))
    by (vm_compute; reflexivity).
  destruct (boundaries_of_returned_frame
              Reference.arctan2 Reference.degrees Reference.sort_values
              reference_sort_values_perm three_points 6 _ 0 Hres) as (vf & bs & H).
  exists (trial_frame Reference.arctan2 Reference.degrees Reference.sort_values
                      three_points 6 0), vf, bs.
  split; [exact Hres|exact H].
Defined.

(** On thirteen participants on one line the run ends with qhull's error. *)
Example main_thirteen_flat :
  main_from_pca Reference.arctan2 Reference.degrees Reference.sort_values ConvexHull_flat
                thirteen_flat
  = Some (Return QhullError).
Proof. vm_compute. reflexivity. Qed.

Lemma main_outcomes_witness :
  (three_points <> [] /\ Z.of_nat (length three_points) <= 12)
  /\ exists bs csv,
       main_from_pca Reference.arctan2 Reference.degrees Reference.sort_values
                     ConvexHull_flat three_points
       = Some (Return (Saved bs [] csv)).
Proof.
  assert (Hne : three_points <> []) by discriminate.
  assert (HN : Z.of_nat (length three_points) <= 12) by (vm_compute; discriminate).
  split; [now split|].
  exact (proj2 (proj2 (main_outcomes Reference.arctan2 Reference.degrees
                                     Reference.sort_values reference_sort_values_perm
                                     ConvexHull_flat three_points)) Hne HN).
Defined.

(** A frame read: an id column and two vote columns, three participants. *)
Lemma load_and_preprocess_data_encoding_witness :
  load_and_preprocess_data fillna_object
    [[Str "p1"; Str "p2"; Empty]; [Str "yes"; Str "no"; Empty]; [Str "Yes"; Num 1; Str "no"]]
  = Some [[Text "p1"; Text "p2"; Number (1 # 2)];
          [Number 1; Number 0; Number (1 # 2)];
          [Number (1 # 2); Number (1 # 2); Number 0]]
  /\ exists q,
       ([[Text "p1"; Text "p2"; Number (1 # 2)];
         [Number 1; Number 0; Number (1 # 2)];
         [Number (1 # 2); Number (1 # 2); Number 0]] !! 2%nat)
         ≫= (fun col' => col' !! 0%nat) = Some (Number q)
       /\ (q = 1%Q <-> Str "Yes" = Str "yes")
       /\ (q = 0%Q <-> Str "Yes" = Str "no")
       /\ (q = (1 # 2)%Q <-> Str "Yes" <> Str "yes" /\ Str "Yes" <> Str "no").
Proof.
  split; [reflexivity|].
  exact (proj2 (proj2 (proj1 (load_and_preprocess_data_encoding
                                fillna_object
                                [[Str "p1"; Str "p2"; Empty]; [Str "yes"; Str "no"; Empty];
                                 [Str "Yes"; Num 1; Str "no"]]) _ eq_refl))
               1%nat 0%nat _ _ eq_refl eq_refl).
Defined.

(** With a string id column that has an empty cell, the same frame is refused. *)
Example load_and_preprocess_data_string_ids :
  load_and_preprocess_data fillna_string
    [[Str "p1"; Str "p2"; Empty]; [Str "yes"; Str "no"; Empty]; [Str "Yes"; Num 1; Str "no"]]
  = None.
Proof. reflexivity. Qed.

Lemma returned_frame_colours_witness :
  exists df,
    Reference.partition three_points 2 = Return (Some (df, 0))
    /\ length (Color df) = length three_points
    /\ Forall is_Some (Color df)
    /\ forall r1 r2, r1 ∈ df -> r2 ∈ df ->
         ((c ← Cluster r1; CLUSTER_COLORS !! c) = (c ← Cluster r2; CLUSTER_COLORS !! c)
          <-> Cluster r1 = Cluster r2).
Proof.
  assert (Hres : Reference.partition three_points 2
                 = Return (Some (trial_frame Reference.arctan2 Reference.degrees
                                             Reference.sort_values three_points 2 0, 0)))
    by (vm_compute; reflexivity).
  exists (trial_frame Reference.arctan2 Reference.degrees Reference.sort_values
                      three_points 2 0).
  split; [exact Hres|].
  exact (returned_frame_colours Reference.arctan2 Reference.degrees Reference.sort_values
                                reference_sort_values_perm three_points 2 _ 0 Hres).
Defined.

Lemma seam_sectors_range :
  Forall (fun r => (0 <= v_Angle r < 360)%Q) seam_sectors.
Proof. repeat constructor; vm_compute; discriminate. Qed.

Lemma boundary_separates_groups_witness :
  (Forall (fun r => (0 <= v_Angle r < 360)%Q) seam_sectors
   /\ ordered_labels seam_sectors !! 2%nat = Some "A"%char
   /\ ordered_labels seam_sectors !! ((2 + 1) mod length (ordered_labels seam_sectors))%nat
      = Some "B"%char)
  /\ exists M m b,
       series_max (angles_of seam_sectors "A") = Some M
       /\ series_min (angles_of seam_sectors "B") = Some m
       /\ Forall (fun a => (a <= M)%Q) (angles_of seam_sectors "A")
       /\ Forall (fun a => (m <= a)%Q) (angles_of seam_sectors "B")
       /\ boundary_angle seam_sectors (ordered_labels seam_sectors) (Z.of_nat 2) = Return (Some b)
       /\ on_arc M m b.
Proof.
  split; [split; [exact seam_sectors_range|split; reflexivity]|].
  exact (boundary_separates_groups seam_sectors 2 "A" "B" seam_sectors_range eq_refl eq_refl).
Defined.
